(** * ember-bootstrap: the button component, its click dispatch and its state

    Two generations of the button live in the repository:

    - [Button]       : addon/components/bs-button.js, the Glimmer component
                       whose [onClick] closure returns a promise;
    - [LegacyButton] : the classic [Ember.Component] whose [click] sends the
                       action [(value, evt, callback)] and lets the receiver
                       hand a promise to [callback].

    Both are embedded as written: instance fields are a record, the methods
    are computations in a small state-and-exception monad over the instance
    and a log of the calls made to the outside (the external callback, the
    [then] registration on a promise, [stopPropagation] on the event). *)

From Stdlib Require Import ZArith Bool List.
From stdpp Require Import base option gmap strings.
Import ListNotations.

Local Open Scope string_scope.

(** ** JavaScript values

    Only what the component inspects: truthiness (for [||], [&&] and [if])
    and whether [typeof v.then === 'function']. A thenable is identified by
    the number of the future it stands for. *)

Inductive JsValue : Type :=
| JsUndefined
| JsNull
| JsBool (b : bool)
| JsNumber (n : Z)
| JsString (s : string)
| JsObject                 (* an object with no callable [then] *)
| JsThenable (p : nat).    (* an object whose [then] is a function *)

Definition truthy (v : JsValue) : bool :=
  match v with
  | JsUndefined | JsNull => false
  | JsBool b => b
  | JsNumber n => negb (n =? 0)%Z
  | JsString s => negb (String.eqb s EmptyString)
  | JsObject | JsThenable _ => true
  end.

(** [typeof v.then === 'function'], for a [v] that is not null/undefined. *)
Definition then_is_function (v : JsValue) : bool :=
  match v with
  | JsThenable _ => true
  | _ => false
  end.

(** [a || b] *)
Definition js_or (a b : JsValue) : JsValue := if truthy a then a else b.

(** [v === null || v === undefined]: what [??] tests. *)
Definition nullish (v : JsValue) : bool :=
  match v with
  | JsUndefined | JsNull => true
  | _ => false
  end.

(** [obj[key]] on a plain object: a missing key reads as [undefined]. *)
Definition prop (obj : gmap string JsValue) (key : string) : JsValue :=
  match obj !! key with
  | Some v => v
  | None => JsUndefined
  end.

(** ** Completions and the monad of methods *)

Inductive Completion (A : Type) : Type :=
| Normal (a : A)
| Throw (x : JsValue).
Arguments Normal {A} a.
Arguments Throw {A} x.

Definition is_normal {A} (c : Completion A) : bool :=
  match c with
  | Normal _ => true
  | Throw _ => false
  end.

Section Monad.
Context {W : Type}.

Definition M (A : Type) : Type := W -> Completion A * W.

Definition ret {A} (a : A) : M A := fun w => (Normal a, w).

Definition bind {A B} (m : M A) (k : A -> M B) : M B :=
  fun w =>
    match m w with
    | (Normal a, w') => k a w'
    | (Throw x, w') => (Throw x, w')
    end.

Definition throw {A} (x : JsValue) : M A := fun w => (Throw x, w).

Definition gets {A} (f : W -> A) : M A := fun w => (Normal (f w), w).

Definition modify (f : W -> W) : M unit := fun w => (Normal tt, f w).

(** The world a computation leaves behind, whatever its completion. *)
Definition exec {A} (m : M A) (w : W) : W := snd (m w).

Definition completion {A} (m : M A) (w : W) : Completion A := fst (m w).
End Monad.
Arguments M : clear implicits.

Notation "'let*' x := m 'in' k" := (bind m (fun x => k))
  (at level 10, x name, m at level 100, k at level 200, only parsing).
Notation "m >> k" := (bind m (fun _ => k))
  (at level 100, k at level 200, right associativity, only parsing).

(** The DOM event of an activation, by number. *)
Definition Event : Type := nat.

(** ** The Glimmer button: addon/components/bs-button.js *)

Module Button.

(** [state]: 'default' > 'pending' > 'fulfilled' / 'rejected'. *)
Inductive State : Type := Default | Pending | Fulfilled | Rejected.

Definition state_name (s : State) : string :=
  match s with
  | Default => "default"
  | Pending => "pending"
  | Fulfilled => "fulfilled"
  | Rejected => "rejected"
  end.

Definition State_eqb (s t : State) : bool :=
  match s, t with
  | Default, Default | Pending, Pending
  | Fulfilled, Fulfilled | Rejected, Rejected => true
  | _, _ => false
  end.

(** The instance: the tracked [state] and the framework's [isDestroyed]. *)
Record Instance : Type := {
  state : State;
  isDestroyed : bool;
}.

(** What the outside observes of a run of a method. *)
Inductive Effect : Type :=
| Invoked (v : JsValue)          (* (onClick)(v) was called *)
| Registered (p : nat)           (* promise.then(.., ..) on future p *)
| StopPropagation (e : Event).   (* e.stopPropagation() *)

Record World : Type := {
  this : Instance;
  log : list Effect;
}.

(** The external [onClick] closure: it receives the value and may, while it
    runs, act on the instance (reset it, have it destroyed); it returns a
    value or throws. *)
Definition Callback : Type :=
  JsValue -> Instance -> Completion JsValue * Instance.

(** The arguments of one render. The [@arg] fields carry their defaults
    ([_disabled = null], [active = false], [bubble = false],
    [preventConcurrency = true], [onClick = null], ...); [args] is
    [this.args] read by name ([icon], [defaultText], [pendingText], ...). *)
Record Args : Type := {
  _disabled : option bool;
  active : bool;
  bubble : bool;
  iconActive : JsValue;
  iconInactive : JsValue;
  value : JsValue;
  preventConcurrency : bool;
  onClick : option Callback;
  args : gmap string JsValue;
}.

(** *** Derived properties *)

Definition isPending (i : Instance) : bool := State_eqb (state i) Pending.
Definition isFulfilled (i : Instance) : bool := State_eqb (state i) Fulfilled.
Definition isRejected (i : Instance) : bool := State_eqb (state i) Rejected.
Definition isSettled (i : Instance) : bool := isFulfilled i || isRejected i.

Definition __disabled (a : Args) (i : Instance) : bool :=
  match _disabled a with
  | Some d => d
  | None => isPending i && preventConcurrency a
  end.

Definition icon (a : Args) : JsValue :=
  js_or (prop (args a) "icon")
        (if active a then iconActive a else iconInactive a).

Definition text (a : Args) (i : Instance) : JsValue :=
  js_or (prop (args a) (state_name (state i) +:+ "Text"))
        (prop (args a) "defaultText").

(** *** Methods *)

Definition set_state (s : State) : M World unit :=
  modify (fun w =>
    {| this := {| state := s; isDestroyed := isDestroyed (this w) |};
       log := log w |}).

Definition emit (e : Effect) : M World unit :=
  modify (fun w => {| this := this w; log := log w ++ [e] |}).

(** [(onClick)(v)] *)
Definition call (f : Callback) (v : JsValue) : M World JsValue :=
  emit (Invoked v) >>
  fun w =>
    let '(c, i) := f v (this w) in
    (c, {| this := i; log := log w |}).

Definition resetState : M World unit := set_state Default.

(** The two closures handed to [promise.then]. *)
Definition onFulfilled : M World unit :=
  let* destroyed := gets (fun w => isDestroyed (this w)) in
  if negb destroyed then set_state Fulfilled else ret tt.

Definition onRejected : M World unit :=
  let* destroyed := gets (fun w => isDestroyed (this w)) in
  if negb destroyed then set_state Rejected else ret tt.

(** [promise.then(f, g)]; calling a [then] that is not a function is a
    TypeError. *)
Definition promise_then (promise : JsValue) : M World unit :=
  match promise with
  | JsThenable p => emit (Registered p)
  | _ => throw (JsString "TypeError")
  end.

Definition handleClick (a : Args) (e : Event) : M World unit :=
  match onClick a with
  | None => ret tt
  | Some f =>
      let* pending := gets (fun w => isPending (this w)) in
      (if negb (preventConcurrency a) || negb pending then
         let* promise := call f (value a) in
         let* destroyed := gets (fun w => isDestroyed (this w)) in
         if truthy promise && then_is_function promise && negb destroyed
         then set_state Pending >> promise_then promise
         else ret tt
       else ret tt) >>
      if negb (bubble a) then emit (StopPropagation e) else ret tt
  end.

(** *** The component over time

    What reaches an instance: activations, the settlement of a future it
    registered on, the framework tearing it down, and [resetState]. *)
Inductive Signal : Type :=
| Click (e : Event)
| Fulfil (p : nat)
| Reject (p : nat)
| Destroy
| Reset.

Definition registered (p : nat) (w : World) : bool :=
  existsb (fun x => match x with
                    | Registered q => Nat.eqb p q
                    | _ => false
                    end) (log w).

Definition destroy : M World unit :=
  modify (fun w =>
    {| this := {| state := state (this w); isDestroyed := true |};
       log := log w |}).

Definition step (a : Args) (s : Signal) : M World unit :=
  match s with
  | Click e => handleClick a e
  | Fulfil p =>
      let* r := gets (registered p) in if r then onFulfilled else ret tt
  | Reject p =>
      let* r := gets (registered p) in if r then onRejected else ret tt
  | Destroy => destroy
  | Reset => resetState
  end.

(** The states the instance goes through, one per signal. A fault of the
    external callback goes to whoever delivered the signal; the instance
    lives on. *)
Fixpoint states (a : Args) (ss : list Signal) (w : World) : list State :=
  match ss with
  | [] => []
  | s :: ss' =>
      let w' := exec (step a s) w in
      state (this w') :: states a ss' w'
  end.

(** A freshly created instance. *)
Definition init : World :=
  {| this := {| state := Default; isDestroyed := false |}; log := [] |}.

(** The values the external callback has been called with, oldest first. *)
Definition invoked (l : list Effect) : list JsValue :=
  flat_map (fun x => match x with Invoked v => [v] | _ => [] end) l.

(** The events whose propagation has been stopped, oldest first. *)
Definition stopped (l : list Effect) : list Event :=
  flat_map (fun x => match x with StopPropagation e => [e] | _ => [] end) l.

(** The world after a sequence of signals. *)
Fixpoint run (a : Args) (ss : list Signal) (w : World) : World :=
  match ss with
  | [] => w
  | s :: ss' => run a ss' (exec (step a s) w)
  end.

(** One activation of a rendered button. [handleClick] writes [this.state]
    and assigns to none of the arguments: those stay what the owner passed,
    so the next render reads them unchanged beside the new instance. *)
Definition activate (e : Event) (r : Args * World) : Args * World :=
  (fst r, exec (handleClick (fst r) e) (snd r)).

(** [onClick !== null && onClick !== undefined] *)
Definition has_onClick (a : Args) : bool :=
  match onClick a with
  | Some _ => true
  | None => false
  end.

(** The two tests that stand before the call of the callback in
    [handleClick]. *)
Definition dispatches (a : Args) (i : Instance) : bool :=
  has_onClick a && (negb (preventConcurrency a) || negb (isPending i)).

Definition is_settlement (s : Signal) : bool :=
  match s with
  | Fulfil _ | Reject _ => true
  | _ => false
  end.

(** A settlement of a future the instance has registered on. *)
Definition settles_registered (w : World) (s : Signal) : bool :=
  match s with
  | Fulfil p | Reject p => registered p w
  | _ => false
  end.

(** Either the instance is idle or it has registered on some future. *)
Definition tracked_or_idle (w : World) : Prop :=
  state (this w) = Default \/ exists p, registered p w = true.

(** The state a settlement asks for. *)
Definition settled_state (s : Signal) : option State :=
  match s with
  | Fulfil _ => Some Fulfilled
  | Reject _ => Some Rejected
  | _ => None
  end.

End Button.

(** ** The classic button: [Ember.Component.extend(TypeClass, SizeClass, ...)] *)

Module LegacyButton.

(** [textState]: 'default', 'pending', 'resolved', 'rejected'. *)
Inductive TextState : Type := Default | Pending | Resolved | Rejected.

Definition textState_name (s : TextState) : string :=
  match s with
  | Default => "default"
  | Pending => "pending"
  | Resolved => "resolved"
  | Rejected => "rejected"
  end.

(** The properties the methods read and write. [props] holds the label
    properties by name ([defaultText], which the class declares as [null],
    and whichever of [pendingText], [resolvedText], [rejectedText] were
    passed in); [isDestroyed] is the framework's. *)
Record Instance : Type := {
  active : bool;
  toggle : bool;
  iconActive : JsValue;
  iconInactive : JsValue;
  value : JsValue;
  textState : TextState;
  reset : JsValue;
  props : gmap string JsValue;
  isDestroyed : bool;
}.

Inductive Effect : Type :=
| SentAction (v : JsValue) (evt : Event)   (* sendAction('action', v, evt, callback) reached a handler *)
| Registered (p : nat).                    (* promise.then(.., ..) on future p *)

Record World : Type := {
  this : Instance;
  log : list Effect;
}.

(** The receiver of the action: it is given the value, the event and the
    [callback] closure, and is otherwise arbitrary code. *)
Definition Action : Type :=
  JsValue -> Event -> (JsValue -> M World unit) -> M World unit.

Definition set_textState (s : TextState) (i : Instance) : Instance :=
  {| active := active i; toggle := toggle i;
     iconActive := iconActive i; iconInactive := iconInactive i;
     value := value i; textState := s; reset := reset i;
     props := props i; isDestroyed := isDestroyed i |}.

Definition set_active (b : bool) (i : Instance) : Instance :=
  {| active := b; toggle := toggle i;
     iconActive := iconActive i; iconInactive := iconInactive i;
     value := value i; textState := textState i; reset := reset i;
     props := props i; isDestroyed := isDestroyed i |}.

Definition set_isDestroyed (b : bool) (i : Instance) : Instance :=
  {| active := active i; toggle := toggle i;
     iconActive := iconActive i; iconInactive := iconInactive i;
     value := value i; textState := textState i; reset := reset i;
     props := props i; isDestroyed := b |}.

Definition update (f : Instance -> Instance) : M World unit :=
  modify (fun w => {| this := f (this w); log := log w |}).

Definition emit (e : Effect) : M World unit :=
  modify (fun w => {| this := this w; log := log w ++ [e] |}).

(** *** Derived properties *)

Definition icon (i : Instance) : JsValue :=
  if active i then iconActive i else iconInactive i.

(** [getWithDefault(key, d)]: the property, or [d] when it is [undefined]. *)
Definition getWithDefault (i : Instance) (key : string) (d : JsValue) : JsValue :=
  match prop (props i) key with
  | JsUndefined => d
  | v => v
  end.

Definition text (i : Instance) : JsValue :=
  getWithDefault i (textState_name (textState i) +:+ "Text")
                 (prop (props i) "defaultText").

(** *** Methods *)

(** [this.set('textState', s)] is the field write [set_textState s]: the
    component consults no liveness flag of its own before it. What the
    framework's [set] adds on a destroyed instance is in [set_in] below. *)
Definition resetState : M World unit := update (set_textState Default).

Definition resetObserver : M World unit :=
  let* r := gets (fun w => reset (this w)) in
  if truthy r then resetState else ret tt.

(** The two closures handed to [promise.then]. *)
Definition onResolved : M World unit := update (set_textState Resolved).
Definition onRejected : M World unit := update (set_textState Rejected).

(** [promise.then(f, g)]; calling a [then] that is not a function is a
    TypeError. *)
Definition promise_then (promise : JsValue) : M World unit :=
  match promise with
  | JsThenable p => emit (Registered p)
  | _ => throw (JsString "TypeError")
  end.

Definition callback (promise : JsValue) : M World unit :=
  if truthy promise then
    update (set_textState Pending) >> promise_then promise
  else ret tt.

(** [sendAction('action', v, evt, callback)]: nothing happens when no
    action is bound. *)
Definition sendAction (action : option Action) (v : JsValue) (evt : Event)
    (cb : JsValue -> M World unit) : M World unit :=
  match action with
  | None => ret tt
  | Some h => emit (SentAction v evt) >> h v evt cb
  end.

Definition toggleProperty_active : M World unit :=
  update (fun i => set_active (negb (active i)) i).

Definition click (action : option Action) (evt : Event) : M World unit :=
  (let* t := gets (fun w => toggle (this w)) in
   if t then toggleProperty_active else ret tt) >>
  let* v := gets (fun w => value (this w)) in
  sendAction action v evt callback.

(** *** The component over time *)
Inductive Signal : Type :=
| Click (evt : Event)
| Fulfil (p : nat)
| Reject (p : nat)
| Destroy
| Reset.                (* the observer of [reset] fires *)

Definition registered (p : nat) (w : World) : bool :=
  existsb (fun x => match x with
                    | Registered q => Nat.eqb p q
                    | _ => false
                    end) (log w).

Definition destroy : M World unit := update (set_isDestroyed true).

Definition step (action : option Action) (s : Signal) : M World unit :=
  match s with
  | Click evt => click action evt
  | Fulfil p =>
      let* r := gets (registered p) in if r then onResolved else ret tt
  | Reject p =>
      let* r := gets (registered p) in if r then onRejected else ret tt
  | Destroy => destroy
  | Reset => resetObserver
  end.

Fixpoint states (action : option Action) (ss : list Signal) (w : World)
    : list TextState :=
  match ss with
  | [] => []
  | s :: ss' =>
      let w' := exec (step action s) w in
      textState (this w') :: states action ss' w'
  end.

(** The receiver that does what the documentation of [click] asks for: it
    calls [callback] with its promise. *)
Definition hand_over (promise : JsValue) : Action :=
  fun _ _ cb => cb promise.

(** A freshly created instance, with the defaults of the class. *)
Definition init : World :=
  {| this := {| active := false; toggle := false;
                iconActive := JsNull; iconInactive := JsNull;
                value := JsNull; textState := Default; reset := JsNull;
                props := {[ "defaultText" := JsNull ]};
                isDestroyed := false |};
     log := [] |}.

(** The world after a sequence of signals. *)
Fixpoint run (action : option Action) (ss : list Signal) (w : World) : World :=
  match ss with
  | [] => w
  | s :: ss' => run action ss' (exec (step action s) w)
  end.

(** *** [set] as the framework runs it

    The methods above are stated over the write [update f], which is what
    [this.set] does on a live instance. Ember's [set] looks at the liveness
    of the object first, and on a destroyed one the outcome depends on the
    build of the framework: a build that keeps its assertions faults
    ("calling set on destroyed object") and writes nothing; a build with the
    assertions stripped, as the production build of Ember 2 is, writes
    through. The build is a parameter. *)
Inductive Build : Type := Asserting | Stripped.

Definition set_in (b : Build) (f : Instance -> Instance) : M World unit :=
  let* destroyed := gets (fun w => isDestroyed (this w)) in
  if destroyed then
    match b with
    | Asserting =>
        throw (JsString "Assertion Failed: calling set on destroyed object")
    | Stripped => update f
    end
  else update f.

(** [resetState] and the two closures handed to [promise.then], each a
    single [this.set('textState', ...)], under a build. *)
Definition resetState_in (b : Build) : M World unit :=
  set_in b (set_textState Default).

Definition onResolved_in (b : Build) : M World unit :=
  set_in b (set_textState Resolved).

Definition onRejected_in (b : Build) : M World unit :=
  set_in b (set_textState Rejected).

(** How many times the action has reached its receiver. *)
Definition sent (l : list Effect) : nat :=
  length (List.filter (fun x => match x with
                           | SentAction _ _ => true
                           | _ => false
                           end) l).

End LegacyButton.

(** ** The state machine of the specification

    Written from the words of the specification (sections 4.1 and 4.3), to
    compare the two components with: four states, [transitionToPending],
    [settleFulfilled] and [settleRejected] allowed from any state, an
    unconditional [reset], and the two resolvers with their [??]. The
    components are read into it through [Button_abs] and
    [LegacyButton_abs]. *)

Module StateMachine.

Inductive ButtonState : Type := Idle | Pending | Fulfilled | Rejected.

Definition transitionToPending (s : ButtonState) : ButtonState := Pending.
Definition settleFulfilled (s : ButtonState) : ButtonState := Fulfilled.
Definition settleRejected (s : ButtonState) : ButtonState := Rejected.
Definition reset (s : ButtonState) : ButtonState := Idle.

(** A dispatch whose future settles: pending, then the settled state. *)
Definition settling_run (fulfils : bool) (s : ButtonState) : list ButtonState :=
  let s1 := transitionToPending s in
  [s1; if fulfils then settleFulfilled s1 else settleRejected s1].

(** [a ?? b] *)
Definition js_coalesce (a b : JsValue) : JsValue :=
  if nullish a then b else a.

(** [resolveText(config, state) = config.textByState[state] ?? config.defaultText] *)
Definition resolveText (textByState : ButtonState -> JsValue)
    (defaultText : JsValue) (s : ButtonState) : JsValue :=
  js_coalesce (textByState s) defaultText.

(** [resolveIcon(config) = config.iconOverride ?? (config.active ? config.iconActive : config.iconInactive)] *)
Definition resolveIcon (iconOverride : JsValue) (active : bool)
    (iconActive iconInactive : JsValue) : JsValue :=
  js_coalesce iconOverride (if active then iconActive else iconInactive).

End StateMachine.

Definition Button_abs (s : Button.State) : StateMachine.ButtonState :=
  match s with
  | Button.Default => StateMachine.Idle
  | Button.Pending => StateMachine.Pending
  | Button.Fulfilled => StateMachine.Fulfilled
  | Button.Rejected => StateMachine.Rejected
  end.

Definition LegacyButton_abs (s : LegacyButton.TextState) : StateMachine.ButtonState :=
  match s with
  | LegacyButton.Default => StateMachine.Idle
  | LegacyButton.Pending => StateMachine.Pending
  | LegacyButton.Resolved => StateMachine.Fulfilled
  | LegacyButton.Rejected => StateMachine.Rejected
  end.

(** The state of the Glimmer button that stands for a state of the
    specification. *)
Definition Button_state_of (s : StateMachine.ButtonState) : Button.State :=
  match s with
  | StateMachine.Idle => Button.Default
  | StateMachine.Pending => Button.Pending
  | StateMachine.Fulfilled => Button.Fulfilled
  | StateMachine.Rejected => Button.Rejected
  end.

(** The per-state labels of a Glimmer configuration, as the table
    [textByState] of the specification: the label of a state is the argument
    [text] reads in that state. *)
Definition Button_textByState (a : Button.Args) (s : StateMachine.ButtonState)
    : JsValue :=
  prop (Button.args a)
       (Button.state_name (Button_state_of s) +:+ "Text").

(** ** Configurations used as examples *)

(** A callback that returns [v] and leaves the instance alone. *)
Definition returning (v : JsValue) : Button.Callback :=
  fun _ i => (Normal v, i).

(** A callback that throws [x]. *)
Definition throwing (x : JsValue) : Button.Callback :=
  fun _ i => (Throw x, i).

(** The defaults of the [@arg] fields, nothing passed in. *)
Definition default_args : Button.Args :=
  {| Button._disabled := None;
     Button.active := false;
     Button.bubble := false;
     Button.iconActive := JsNull;
     Button.iconInactive := JsNull;
     Button.value := JsNull;
     Button.preventConcurrency := true;
     Button.onClick := None;
     Button.args := ∅ |}.

(** [<BsButton @_disabled={{true}} @onClick={{...}} />], the callback
    returning future 0. *)
Definition disabled_args : Button.Args :=
  {| Button._disabled := Some true;
     Button.active := false;
     Button.bubble := false;
     Button.iconActive := JsNull;
     Button.iconInactive := JsNull;
     Button.value := JsNull;
     Button.preventConcurrency := true;
     Button.onClick := Some (returning (JsThenable 0));
     Button.args := ∅ |}.

(** [<BsButton @defaultText="Save" @pendingText="" @onClick={{...}} />] *)
Definition blank_pending_args : Button.Args :=
  {| Button._disabled := None;
     Button.active := false;
     Button.bubble := false;
     Button.iconActive := JsNull;
     Button.iconInactive := JsNull;
     Button.value := JsNull;
     Button.preventConcurrency := true;
     Button.onClick := Some (returning (JsThenable 0));
     Button.args := {[ "defaultText" := JsString "Save";
                       "pendingText" := JsString EmptyString ]} |}.

(** [<BsButton @icon="" @active={{true}} @iconActive="star-filled"
    @iconInactive="star-empty" />] *)
Definition blank_icon_args : Button.Args :=
  {| Button._disabled := None;
     Button.active := true;
     Button.bubble := false;
     Button.iconActive := JsString "star-filled";
     Button.iconInactive := JsString "star-empty";
     Button.value := JsNull;
     Button.preventConcurrency := true;
     Button.onClick := None;
     Button.args := {[ "icon" := JsString EmptyString ]} |}.

(** Scenario A of the specification: labels "Save", "Saving...", "Saved",
    the callback returning future 0. *)
Definition save_args : Button.Args :=
  {| Button._disabled := None;
     Button.active := false;
     Button.bubble := false;
     Button.iconActive := JsNull;
     Button.iconInactive := JsNull;
     Button.value := JsString "doc";
     Button.preventConcurrency := true;
     Button.onClick := Some (returning (JsThenable 0));
     Button.args := {[ "defaultText" := JsString "Save";
                       "pendingText" := JsString "Saving...";
                       "fulfilledText" := JsString "Saved" ]} |}.

(** A pending instance of the Glimmer button. *)
Definition pending_world : Button.World :=
  {| Button.this := {| Button.state := Button.Pending;
                       Button.isDestroyed := false |};
     Button.log := [Button.Invoked (JsString "doc"); Button.Registered 0] |}.

(** Scenario C of the specification on the classic button: [toggle=true],
    [active=false], [iconActive="star-filled"], [iconInactive="star-empty"]. *)
Definition star_world : LegacyButton.World :=
  {| LegacyButton.this :=
       {| LegacyButton.active := false; LegacyButton.toggle := true;
          LegacyButton.iconActive := JsString "star-filled";
          LegacyButton.iconInactive := JsString "star-empty";
          LegacyButton.value := JsNull;
          LegacyButton.textState := LegacyButton.Default;
          LegacyButton.reset := JsNull;
          LegacyButton.props := {[ "defaultText" := JsNull ]};
          LegacyButton.isDestroyed := false |};
     LegacyButton.log := [] |}.

(** [<BsButton @onClick={{...}} />] with a callback that returns a plain
    string. *)
Definition plain_args : Button.Args :=
  {| Button._disabled := None;
     Button.active := false;
     Button.bubble := false;
     Button.iconActive := JsNull;
     Button.iconInactive := JsNull;
     Button.value := JsString "doc";
     Button.preventConcurrency := true;
     Button.onClick := Some (returning (JsString "done"));
     Button.args := ∅ |}.

(** The same with a callback that throws. *)
Definition faulty_args : Button.Args :=
  {| Button._disabled := None;
     Button.active := false;
     Button.bubble := false;
     Button.iconActive := JsNull;
     Button.iconInactive := JsNull;
     Button.value := JsString "doc";
     Button.preventConcurrency := true;
     Button.onClick := Some (throwing (JsString "boom"));
     Button.args := ∅ |}.

(** [<BsButton disabled={{false}} @onClick={{...}} />], the override that
    un-disables. *)
Definition enabled_args : Button.Args :=
  {| Button._disabled := Some false;
     Button.active := false;
     Button.bubble := false;
     Button.iconActive := JsNull;
     Button.iconInactive := JsNull;
     Button.value := JsString "doc";
     Button.preventConcurrency := true;
     Button.onClick := Some (returning (JsThenable 0));
     Button.args := ∅ |}.

(** [<BsButton @preventConcurrency={{false}} @onClick={{...}} />] *)
Definition concurrent_args : Button.Args :=
  {| Button._disabled := None;
     Button.active := false;
     Button.bubble := false;
     Button.iconActive := JsNull;
     Button.iconInactive := JsNull;
     Button.value := JsString "doc";
     Button.preventConcurrency := false;
     Button.onClick := Some (returning (JsThenable 0));
     Button.args := ∅ |}.

(** Scenario C of the specification on the Glimmer button:
    [<BsButton @toggle={{true}} @active={{false}} @iconActive="star-filled"
    @iconInactive="star-empty" @onClick={{...}} />]. The component declares
    no [toggle]; what is passed under that name is in [this.args] only. *)
Definition toggle_args : Button.Args :=
  {| Button._disabled := None;
     Button.active := false;
     Button.bubble := false;
     Button.iconActive := JsString "star-filled";
     Button.iconInactive := JsString "star-empty";
     Button.value := JsNull;
     Button.preventConcurrency := true;
     Button.onClick := Some (returning JsUndefined);
     Button.args := {[ "toggle" := JsBool true ]} |}.

(** A rejected classic button whose pending label is the empty string. *)
Definition blank_legacy : LegacyButton.Instance :=
  {| LegacyButton.active := false; LegacyButton.toggle := false;
     LegacyButton.iconActive := JsNull; LegacyButton.iconInactive := JsNull;
     LegacyButton.value := JsNull;
     LegacyButton.textState := LegacyButton.Rejected;
     LegacyButton.reset := JsNull;
     LegacyButton.props := {[ "defaultText" := JsString "Save";
                              "pendingText" := JsString EmptyString ]};
     LegacyButton.isDestroyed := false |}.

(** The same button while pending. *)
Definition blank_pending_legacy : LegacyButton.Instance :=
  LegacyButton.set_textState LegacyButton.Pending blank_legacy.

(** A pending classic button with the labels of [save_args]. *)
Definition save_legacy : LegacyButton.Instance :=
  {| LegacyButton.active := false; LegacyButton.toggle := false;
     LegacyButton.iconActive := JsNull; LegacyButton.iconInactive := JsNull;
     LegacyButton.value := JsString "doc";
     LegacyButton.textState := LegacyButton.Pending;
     LegacyButton.reset := JsNull;
     LegacyButton.props := Button.args save_args;
     LegacyButton.isDestroyed := false |}.

(** * Properties *)

Import Button.
Local Open Scope list_scope.

Ltac unfold_monad :=
  unfold exec, completion, call, set_state, emit, bind, ret, gets, modify, throw in *.

Ltac unfold_legacy :=
  unfold LegacyButton.click, LegacyButton.sendAction, LegacyButton.hand_over,
    LegacyButton.callback, LegacyButton.promise_then,
    LegacyButton.toggleProperty_active, LegacyButton.update, LegacyButton.emit,
    LegacyButton.onResolved, LegacyButton.onRejected, LegacyButton.destroy in *.

Lemma invoked_app l1 l2 : invoked (l1 ++ l2) = invoked l1 ++ invoked l2.
Proof. unfold invoked. apply flat_map_app. Qed.

Lemma stopped_app l1 l2 : stopped (l1 ++ l2) = stopped l1 ++ stopped l2.
Proof. unfold stopped. apply flat_map_app. Qed.

Lemma isPending_true i : state i = Pending -> isPending i = true.
Proof. unfold isPending. intros ->. reflexivity. Qed.

Lemma isPending_iff i : isPending i = true <-> state i = Pending.
Proof. unfold isPending. destruct (state i); simpl; split; congruence. Qed.

(** ** The single-flight guard *)

(** While pending with [preventConcurrency], an activation only reaches the
    event: the instance is untouched and the log gains at most the
    [stopPropagation] call. The [_disabled] override plays no part. *)
Lemma handleClick_gated a e w :
  state (this w) = Pending ->
  preventConcurrency a = true ->
  handleClick a e w =
    (Normal tt,
     match onClick a with
     | None => w
     | Some _ =>
         if bubble a then w
         else {| this := this w; log := log w ++ [StopPropagation e] |}
     end).
Proof.
  intros Hs Hp. unfold handleClick.
  destruct (onClick a) as [f|]; [|reflexivity].
  unfold_monad. rewrite (isPending_true _ Hs), Hp. simpl.
  destruct (bubble a); reflexivity.
Qed.

(** C1. An activation dispatched while the state is pending, with
    [preventConcurrency] true and no [_disabled] override that un-disables
    the button, does not invoke the external [onClick] callback and leaves
    the state (indeed the whole instance) as it was. *)
Theorem handleClick_pending_is_suppressed a e w :
  state (this w) = Pending ->
  preventConcurrency a = true ->
  _disabled a <> Some false ->
  invoked (log (exec (handleClick a e) w)) = invoked (log w)
  /\ state (this (exec (handleClick a e) w)) = state (this w)
  /\ this (exec (handleClick a e) w) = this w.
Proof.
  intros Hs Hp _. unfold exec. rewrite (handleClick_gated a e w Hs Hp). simpl.
  destruct (onClick a) as [f|]; [destruct (bubble a)|]; simpl;
    rewrite ?invoked_app, ?app_nil_r; auto.
Qed.

(** ** No callback configured *)

(** C10. With no [onClick] configured the handler returns at once: the state
    is unchanged and [stopPropagation] is not called, whatever [bubble] is;
    nothing at all is logged. *)
Theorem handleClick_without_onClick_returns a e w :
  onClick a = None ->
  handleClick a e w = (Normal tt, w)
  /\ state (this (exec (handleClick a e) w)) = state (this w)
  /\ stopped (log (exec (handleClick a e) w)) = stopped (log w).
Proof.
  intros H. unfold exec, handleClick. rewrite H. simpl. auto.
Qed.

(** ** A dispatch that is not gated *)

Lemma not_gated_test a w :
  preventConcurrency a = false \/ state (this w) <> Pending ->
  negb (preventConcurrency a) || negb (isPending (this w)) = true.
Proof.
  intros [-> | Hs]; [reflexivity|].
  destruct (isPending (this w)) eqn:E.
  - apply isPending_iff in E. contradiction.
  - apply orb_true_r.
Qed.

(** What [handleClick] does once the callback is reached, by what the
    callback did. *)
Lemma handleClick_dispatch a e w f :
  onClick a = Some f ->
  preventConcurrency a = false \/ state (this w) <> Pending ->
  handleClick a e w =
    match f (value a) (this w) with
    | (Throw x, i) =>
        (Throw x, {| this := i; log := log w ++ [Invoked (value a)] |})
    | (Normal promise, i) =>
        (Normal tt,
         {| this :=
              if then_is_function promise && negb (isDestroyed i)
              then {| state := Pending; isDestroyed := isDestroyed i |}
              else i;
            log :=
              ((log w ++ [Invoked (value a)])
               ++ match promise with
                  | JsThenable p => if isDestroyed i then [] else [Registered p]
                  | _ => []
                  end)
              ++ (if bubble a then [] else [StopPropagation e]) |})
    end.
Proof.
  intros Hf Hg. unfold handleClick. rewrite Hf.
  unfold_monad. rewrite (not_gated_test a w Hg). simpl.
  destruct (f (value a) (this w)) as [[promise|x] i]; [|reflexivity].
  destruct promise as [ | |b|n|s| |p]; simpl;
    try (destruct (bubble a); simpl; rewrite ?app_nil_r; reflexivity).
  - destruct b; simpl; destruct (bubble a); simpl; rewrite ?app_nil_r; reflexivity.
  - destruct (negb (n =? 0)%Z); simpl; destruct (bubble a); simpl;
      rewrite ?app_nil_r; reflexivity.
  - destruct (negb (String.eqb s EmptyString)); simpl; destruct (bubble a); simpl;
      rewrite ?app_nil_r; reflexivity.
  - destruct i as [st [|]]; simpl; destruct (bubble a); simpl;
      rewrite ?app_nil_r; reflexivity.
Qed.

(** Reaching the callback leaves exactly one more invocation in the log. *)
Lemma handleClick_dispatch_invoked a e w f :
  onClick a = Some f ->
  preventConcurrency a = false \/ state (this w) <> Pending ->
  invoked (log (exec (handleClick a e) w)) = invoked (log w) ++ [value a].
Proof.
  intros Hf Hg. unfold exec. rewrite (handleClick_dispatch a e w f Hf Hg).
  destruct (f (value a) (this w)) as [[promise|x] i]; simpl.
  - rewrite !invoked_app. simpl.
    replace (invoked match promise with
                     | JsThenable p => if isDestroyed i then [] else [Registered p]
                     | _ => []
                     end) with (@nil JsValue)
      by (destruct promise; try reflexivity; destruct (isDestroyed i); reflexivity).
    replace (invoked (if bubble a then [] else [StopPropagation e]))
      with (@nil JsValue) by (destruct (bubble a); reflexivity).
    rewrite !app_nil_r. reflexivity.
  - rewrite invoked_app. reflexivity.
Qed.

(** When exactly an activation leaves the callback alone. *)
Lemma handleClick_invoked_iff a e w :
  invoked (log (exec (handleClick a e) w)) = invoked (log w)
  <-> onClick a = None
      \/ (preventConcurrency a = true /\ state (this w) = Pending).
Proof.
  split.
  - intros H. destruct (onClick a) as [f|] eqn:Hf; [|auto]. right.
    destruct (preventConcurrency a) eqn:Hp.
    + split; [reflexivity|].
      destruct (isPending (this w)) eqn:E; [now apply isPending_iff|].
      exfalso.
      assert (Hg : preventConcurrency a = false \/ state (this w) <> Pending).
      { right. intros Hs. apply isPending_iff in Hs. congruence. }
      rewrite (handleClick_dispatch_invoked a e w f Hf Hg) in H.
      apply (f_equal (@length _)) in H. rewrite length_app in H. simpl in H. lia.
    + exfalso.
      rewrite (handleClick_dispatch_invoked a e w f Hf (or_introl Hp)) in H.
      apply (f_equal (@length _)) in H. rewrite length_app in H. simpl in H. lia.
  - intros [Hn | [Hp Hs]].
    + unfold exec, handleClick. rewrite Hn. reflexivity.
    + unfold exec. rewrite (handleClick_gated a e w Hs Hp).
      destruct (onClick a); [destruct (bubble a)|]; simpl;
        rewrite ?invoked_app, ?app_nil_r; reflexivity.
Qed.

(** ** The [_disabled] override *)

(** C3, as claimed, fails: with [_disabled = true] an activation from the
    idle state still calls the external callback and, the callback returning
    a promise, moves the state to pending. *)
Lemma disabled_override_still_dispatches :
  ~ (forall a e w,
        _disabled a = Some true ->
        invoked (log (exec (handleClick a e) w)) = invoked (log w)
        /\ state (this (exec (handleClick a e) w)) = state (this w)).
Proof.
  intros H. destruct (H disabled_args 0 init eq_refl) as [Hi _].
  vm_compute in Hi. discriminate Hi.
Qed.

(** C3, amended. With [_disabled = true] the derived [__disabled] is true in
    every state, the idle one included; [handleClick] itself does not read
    the override: it leaves the callback alone exactly when no [onClick] is
    configured or when [preventConcurrency] is true and the state is
    pending. *)
Theorem disabled_override_sets_attribute_only a e w :
  _disabled a = Some true ->
  __disabled a (this w) = true
  /\ (invoked (log (exec (handleClick a e) w)) = invoked (log w)
      <-> onClick a = None
          \/ (preventConcurrency a = true /\ state (this w) = Pending)).
Proof.
  intros H. split.
  - unfold __disabled. rewrite H. reflexivity.
  - apply handleClick_invoked_iff.
Qed.

(** ** Event propagation *)

(** C5, as claimed, fails: with [bubble = false] but no [onClick] the
    handler returns before it reaches [stopPropagation]. *)
Lemma stopPropagation_skipped_without_onClick :
  ~ (forall a e w,
        bubble a = false ->
        In e (stopped (log (exec (handleClick a e) w)))).
Proof.
  intros H. exact (H default_args 0 init eq_refl).
Qed.

(** The handler completes abruptly only by a fault of the callback. *)
Lemma handleClick_completion a e w :
  completion (handleClick a e) w =
    match onClick a with
    | None => Normal tt
    | Some f =>
        if negb (preventConcurrency a) || negb (isPending (this w))
        then match fst (f (value a) (this w)) with
             | Normal _ => Normal tt
             | Throw x => Throw x
             end
        else Normal tt
    end.
Proof.
  unfold completion.
  destruct (onClick a) as [f|] eqn:Hf; [|unfold handleClick; now rewrite Hf].
  destruct (negb (preventConcurrency a) || negb (isPending (this w))) eqn:Hg.
  - rewrite (handleClick_dispatch a e w f Hf).
    + destruct (f (value a) (this w)) as [[v|x] i]; reflexivity.
    + destruct (preventConcurrency a); [right|now left].
      intros Hs. rewrite (isPending_true _ Hs) in Hg. discriminate.
  - apply orb_false_iff in Hg. destruct Hg as [Hp Hs].
    apply negb_false_iff in Hp, Hs. apply isPending_iff in Hs.
    rewrite (handleClick_gated a e w Hs Hp). reflexivity.
Qed.

(** C5, amended. With an [onClick] configured and [bubble = false], every
    activation the handler completes ends with [stopPropagation] on its
    event: after a callback that returned a promise, after one that returned
    anything else, and when the single-flight guard kept the callback from
    being called. *)
Theorem handleClick_stops_propagation a e w f :
  onClick a = Some f ->
  bubble a = false ->
  is_normal (completion (handleClick a e) w) = true ->
  (exists l, log (exec (handleClick a e) w) = l ++ [StopPropagation e])
  /\ In e (stopped (log (exec (handleClick a e) w))).
Proof.
  intros Hf Hb Hn.
  assert (Hlast : exists l, log (exec (handleClick a e) w) = l ++ [StopPropagation e]).
  { rewrite handleClick_completion, Hf in Hn. unfold exec.
    destruct (negb (preventConcurrency a) || negb (isPending (this w))) eqn:Hg.
    - rewrite (handleClick_dispatch a e w f Hf).
      + destruct (f (value a) (this w)) as [[v|x] i]; simpl in *; [|discriminate].
        rewrite Hb. eexists. reflexivity.
      + destruct (preventConcurrency a); [right|now left].
        intros Hs. rewrite (isPending_true _ Hs) in Hg. discriminate.
    - apply orb_false_iff in Hg. destruct Hg as [Hp Hs].
      apply negb_false_iff in Hp, Hs. apply isPending_iff in Hs.
      rewrite (handleClick_gated a e w Hs Hp), Hf, Hb. simpl.
      eexists. reflexivity. }
  split; [exact Hlast|].
  destruct Hlast as [l ->]. rewrite stopped_app. apply in_or_app. right.
  simpl. auto.
Qed.

(** ** Label and icon *)

(** The argument [text] reads in each state, [`${this.state}Text`]: in the
    idle state it is [defaultText] itself. *)
Lemma state_text_key s :
  (state_name s +:+ "Text")%string =
    match s with
    | Default => "defaultText"
    | Pending => "pendingText"
    | Fulfilled => "fulfilledText"
    | Rejected => "rejectedText"
    end%string.
Proof. destruct s; reflexivity. Qed.

(** C6, as claimed, fails: a label that is configured as the empty string
    is not what [text] resolves to; [defaultText] is. *)
Lemma text_ignores_blank_label :
  ~ (forall a i,
        let v := prop (args a) (state_name (state i) +:+ "Text") in
        (nullish v = false -> text a i = v)
        /\ (nullish v = true -> text a i = prop (args a) "defaultText")).
Proof.
  intros H.
  destruct (H blank_pending_args (this pending_world)) as [Hc _].
  specialize (Hc eq_refl). vm_compute in Hc. discriminate Hc.
Qed.

(** The same, against the formula of the specification. *)
Lemma text_differs_from_resolveText :
  text blank_pending_args (this pending_world)
  <> StateMachine.resolveText (Button_textByState blank_pending_args)
       (prop (args blank_pending_args) "defaultText")
       (Button_abs (state (this pending_world))).
Proof. vm_compute. discriminate. Qed.

(** C6, amended. In every state S: the label of the Glimmer button is the
    configured [{S}Text] when that value is truthy (a non-empty string), and
    [defaultText] when it is absent or falsy (the empty string included);
    the label of the classic button is [{S}Text] whenever that property is
    not undefined (the empty string included), and [defaultText] when it is
    undefined. [{S}] is the name the component gives the state. *)
Theorem text_label_or_default_by_getter a i li :
  (let v := prop (args a) (state_name (state i) +:+ "Text") in
   (truthy v = true -> text a i = v)
   /\ (truthy v = false -> text a i = prop (args a) "defaultText"))
  /\ (let v := prop (LegacyButton.props li)
                 (LegacyButton.textState_name (LegacyButton.textState li)
                  +:+ "Text") in
      (v <> JsUndefined -> LegacyButton.text li = v)
      /\ (v = JsUndefined ->
          LegacyButton.text li = prop (LegacyButton.props li) "defaultText")).
Proof.
  split.
  - intros v. unfold text, js_or. fold v.
    split; intros ->; reflexivity.
  - intros v. unfold LegacyButton.text, LegacyButton.getWithDefault. fold v.
    split.
    + intros Hv. destruct v; congruence.
    + intros ->. reflexivity.
Qed.

(** Where [text] and the formula of the specification agree: on every label
    that is absent or truthy. *)
Lemma text_agrees_with_resolveText a i :
  let v := prop (args a) (state_name (state i) +:+ "Text") in
  nullish v = true \/ truthy v = true ->
  text a i = StateMachine.resolveText (Button_textByState a)
               (prop (args a) "defaultText") (Button_abs (state i)).
Proof.
  intros v H.
  assert (Hk : Button_textByState a (Button_abs (state i)) = v).
  { unfold Button_textByState. subst v. destruct (state i); reflexivity. }
  unfold text, StateMachine.resolveText, StateMachine.js_coalesce, js_or.
  rewrite Hk. fold v. destruct H as [H | H].
  - rewrite H. destruct v; try discriminate; reflexivity.
  - rewrite H. destruct v; try discriminate; reflexivity.
Qed.

(** C7, as claimed, fails: an [icon] argument that is set to the empty
    string does not win over [iconActive]. *)
Lemma icon_ignores_blank_override :
  ~ (forall a,
        let o := prop (args a) "icon" in
        (nullish o = false -> icon a = o)
        /\ (nullish o = true ->
            icon a = if active a then iconActive a else iconInactive a)).
Proof.
  intros H. destruct (H blank_icon_args) as [Hc _].
  specialize (Hc eq_refl). vm_compute in Hc. discriminate Hc.
Qed.

(** The same, against the formula of the specification. *)
Lemma icon_differs_from_resolveIcon :
  icon blank_icon_args
  <> StateMachine.resolveIcon (prop (args blank_icon_args) "icon")
       (active blank_icon_args) (iconActive blank_icon_args)
       (iconInactive blank_icon_args).
Proof. vm_compute. discriminate. Qed.

(** C7, amended. The icon is the [icon] argument whenever that is truthy (a
    non-empty string); otherwise, absent or falsy, it is [iconActive] when
    [active] is true and [iconInactive] when it is false. *)
Theorem icon_is_truthy_override_or_by_active a :
  let o := prop (args a) "icon" in
  (truthy o = true -> icon a = o)
  /\ (truthy o = false -> active a = true -> icon a = iconActive a)
  /\ (truthy o = false -> active a = false -> icon a = iconInactive a).
Proof.
  intros o. unfold icon, js_or. fold o.
  repeat split; intros ->; try intros ->; reflexivity.
Qed.

(** Where the two readings agree: on every override that is absent or
    truthy. *)
Lemma icon_agrees_with_resolveIcon a :
  let o := prop (args a) "icon" in
  nullish o = true \/ truthy o = true ->
  icon a = StateMachine.resolveIcon o (active a) (iconActive a) (iconInactive a).
Proof.
  intros o. unfold icon, StateMachine.resolveIcon, StateMachine.js_coalesce, js_or.
  fold o. intros [H | H].
  - destruct o; try discriminate; reflexivity.
  - rewrite H. destruct o; try discriminate; reflexivity.
Qed.

(** The classic button has no override: its icon follows [active] alone. *)
Lemma legacy_icon_by_active i :
  LegacyButton.icon i =
    if LegacyButton.active i then LegacyButton.iconActive i
    else LegacyButton.iconInactive i.
Proof. reflexivity. Qed.

(** The classic button falls back to [defaultText] only for a label that is
    [undefined]. *)
Lemma legacy_text_defined i :
  let v := prop (LegacyButton.props i)
             (LegacyButton.textState_name (LegacyButton.textState i) +:+ "Text")%string in
  v <> JsUndefined -> LegacyButton.text i = v.
Proof.
  intros v Hv. unfold LegacyButton.text, LegacyButton.getWithDefault. fold v.
  destruct v; congruence.
Qed.

(** ** Reset *)

(** On a live instance [set] is the write, whatever the build. *)
Lemma set_in_live b f lw :
  LegacyButton.isDestroyed (LegacyButton.this lw) = false ->
  LegacyButton.set_in b f lw = LegacyButton.update f lw.
Proof.
  intros H. unfold LegacyButton.set_in, bind, gets. rewrite H. reflexivity.
Qed.

Lemma resetState_in_live b lw :
  LegacyButton.isDestroyed (LegacyButton.this lw) = false ->
  LegacyButton.resetState_in b lw = LegacyButton.resetState lw.
Proof. apply set_in_live. Qed.

(** On a destroyed instance the classic reset is the framework's to decide:
    an asserting build faults and leaves [textState] as it was, a stripped
    one writes. *)
Lemma resetState_in_destroyed lw :
  LegacyButton.isDestroyed (LegacyButton.this lw) = true ->
  LegacyButton.resetState_in LegacyButton.Asserting lw
  = (Throw (JsString "Assertion Failed: calling set on destroyed object"), lw)
  /\ LegacyButton.resetState_in LegacyButton.Stripped lw
     = LegacyButton.resetState lw.
Proof.
  intros H. unfold LegacyButton.resetState_in, LegacyButton.set_in, bind, gets.
  rewrite H. split; reflexivity.
Qed.

(** The two closures of the classic button after teardown, under a build:
    an asserting build faults, a stripped one writes; neither is silent. *)
Lemma legacy_settlement_after_teardown_in_build lw :
  LegacyButton.isDestroyed (LegacyButton.this lw) = true ->
  (is_normal (completion (LegacyButton.onResolved_in LegacyButton.Asserting) lw)
     = false
   /\ is_normal (completion (LegacyButton.onRejected_in LegacyButton.Asserting) lw)
      = false)
  /\ (LegacyButton.onResolved_in LegacyButton.Stripped lw
        = LegacyButton.onResolved lw
      /\ LegacyButton.onRejected_in LegacyButton.Stripped lw
         = LegacyButton.onRejected lw).
Proof.
  intros H.
  unfold LegacyButton.onResolved_in, LegacyButton.onRejected_in,
    LegacyButton.set_in, completion, bind, gets.
  rewrite H. repeat split.
Qed.

(** C8. From every state, [resetState] sets the state to the idle one, and
    invoking it again at once leaves the instance as the first call left it;
    it does not fail. So it is for the Glimmer button, and for the classic
    one while the instance is alive, under either build of the framework. *)
Theorem resetState_idle_idempotent (w : Button.World)
    (b : LegacyButton.Build) (lw : LegacyButton.World) :
  (completion resetState w = Normal tt
   /\ state (this (exec resetState w)) = Default
   /\ Button_abs (state (this (exec resetState w)))
      = StateMachine.reset (Button_abs (state (this w)))
   /\ exec resetState (exec resetState w) = exec resetState w)
  /\ (LegacyButton.isDestroyed (LegacyButton.this lw) = false ->
      completion (LegacyButton.resetState_in b) lw = Normal tt
      /\ LegacyButton.textState
           (LegacyButton.this (exec (LegacyButton.resetState_in b) lw))
         = LegacyButton.Default
      /\ LegacyButton.isDestroyed
           (LegacyButton.this (exec (LegacyButton.resetState_in b) lw))
         = false
      /\ exec (LegacyButton.resetState_in b)
           (exec (LegacyButton.resetState_in b) lw)
         = exec (LegacyButton.resetState_in b) lw).
Proof.
  split; [repeat split|].
  intros Hl.
  pose proof (resetState_in_live b lw Hl) as H1.
  assert (He : exec (LegacyButton.resetState_in b) lw
               = exec LegacyButton.resetState lw)
    by (unfold exec; now rewrite H1).
  assert (Hc : completion (LegacyButton.resetState_in b) lw = Normal tt)
    by (unfold completion; now rewrite H1).
  rewrite He. split; [exact Hc|]. split; [reflexivity|]. split; [exact Hl|].
  unfold exec at 1. rewrite resetState_in_live; [reflexivity | exact Hl].
Qed.

(** The observer of the classic button resets on every truthy [reset], also
    when the value is the one it had. *)
Lemma resetObserver_truthy lw :
  truthy (LegacyButton.reset (LegacyButton.this lw)) = true ->
  LegacyButton.resetObserver lw = LegacyButton.resetState lw.
Proof.
  intros H. unfold LegacyButton.resetObserver, bind, gets. rewrite H. reflexivity.
Qed.

(** ** Toggle *)

(** What [callback] leaves of the instance: only [textState] may differ. *)
Lemma callback_frame promise lw :
  let i := LegacyButton.this (exec (LegacyButton.callback promise) lw) in
  LegacyButton.active i = LegacyButton.active (LegacyButton.this lw)
  /\ LegacyButton.iconActive i = LegacyButton.iconActive (LegacyButton.this lw)
  /\ LegacyButton.iconInactive i = LegacyButton.iconInactive (LegacyButton.this lw).
Proof.
  unfold_legacy. unfold_monad.
  destruct (truthy promise); [|simpl; auto].
  destruct promise; simpl; auto.
Qed.

(** Sending the action to a receiver that hands over its promise is calling
    [callback] with that promise. *)
Lemma sendAction_hand_over promise v evt cb lw :
  LegacyButton.sendAction (Some (LegacyButton.hand_over promise)) v evt cb lw
  = cb promise
      {| LegacyButton.this := LegacyButton.this lw;
         LegacyButton.log :=
           LegacyButton.log lw ++ [LegacyButton.SentAction v evt] |}.
Proof. reflexivity. Qed.

(** C4, as claimed, fails on the Glimmer button: [handleClick] reads no
    [toggle] and writes no [active]. With [toggle=true] passed and
    [active=false], after an activation [active] is still false and the icon
    is still [iconInactive]. *)
Lemma glimmer_click_does_not_toggle :
  ~ (forall a e w,
        truthy (prop (args a) "toggle") = true ->
        active a = false ->
        let r := activate e (a, w) in
        active (fst r) = true /\ icon (fst r) = iconActive a).
Proof.
  intros H.
  destruct (H toggle_args 0 init eq_refl eq_refl) as [Ha _].
  vm_compute in Ha. discriminate Ha.
Qed.

(** C4, amended. On the classic button with [toggle], [click] negates
    [active] before anything else: the action is sent from the instance
    whose flag is already flipped. With [toggle = true] and [active = false], one activation (no
    action bound, or a receiver that hands its promise to [callback]) leaves
    [active] true and the icon at [iconActive]. *)
Theorem click_toggles_active_first action evt lw :
  LegacyButton.toggle (LegacyButton.this lw) = true ->
  let flipped := exec LegacyButton.toggleProperty_active lw in
  LegacyButton.active (LegacyButton.this flipped)
    = negb (LegacyButton.active (LegacyButton.this lw))
  /\ LegacyButton.click action evt lw
     = LegacyButton.sendAction action
         (LegacyButton.value (LegacyButton.this lw)) evt
         LegacyButton.callback flipped
  /\ (forall promise,
        action = None \/ action = Some (LegacyButton.hand_over promise) ->
        let after := LegacyButton.this (exec (LegacyButton.click action evt) lw) in
        LegacyButton.active after
          = negb (LegacyButton.active (LegacyButton.this lw))
        /\ (LegacyButton.active (LegacyButton.this lw) = false ->
            LegacyButton.icon after
              = LegacyButton.iconActive (LegacyButton.this lw))).
Proof.
  intros Ht flipped.
  assert (Hclick : LegacyButton.click action evt lw
            = LegacyButton.sendAction action
                (LegacyButton.value (LegacyButton.this lw)) evt
                LegacyButton.callback flipped).
  { unfold LegacyButton.click, bind at 1. unfold gets at 1. unfold bind at 1.
    rewrite Ht. reflexivity. }
  split; [reflexivity|]. split; [exact Hclick|].
  intros promise Hact after.
  assert (Hactive : LegacyButton.active after
            = negb (LegacyButton.active (LegacyButton.this lw))
          /\ LegacyButton.iconActive after
             = LegacyButton.iconActive (LegacyButton.this lw)).
  { subst after. unfold exec. rewrite Hclick.
    destruct Hact as [-> | ->].
    - simpl. auto.
    - rewrite sendAction_hand_over.
      match goal with
      | |- context [LegacyButton.callback promise ?w0] =>
          destruct (callback_frame promise w0) as (Ha & Hi & _)
      end.
      unfold exec in Ha, Hi. rewrite Ha, Hi. simpl. auto. }
  destruct Hactive as [Ha Hi]. split; [exact Ha|].
  intros Hf. unfold LegacyButton.icon. rewrite Ha, Hf, Hi. reflexivity.
Qed.

(** ** Settlement *)

(** The Glimmer handlers on a live instance. *)
Lemma onFulfilled_live w :
  isDestroyed (this w) = false ->
  onFulfilled w =
    (Normal tt, {| this := {| state := Fulfilled; isDestroyed := false |};
                   log := log w |}).
Proof. intros H. unfold onFulfilled. unfold_monad. rewrite H. simpl. rewrite H. reflexivity. Qed.

Lemma onRejected_live w :
  isDestroyed (this w) = false ->
  onRejected w =
    (Normal tt, {| this := {| state := Rejected; isDestroyed := false |};
                   log := log w |}).
Proof. intros H. unfold onRejected. unfold_monad. rewrite H. simpl. rewrite H. reflexivity. Qed.

(** The Glimmer handlers after teardown: nothing is written, nothing is
    thrown. *)
Lemma settlement_after_teardown_is_noop w :
  isDestroyed (this w) = true ->
  onFulfilled w = (Normal tt, w) /\ onRejected w = (Normal tt, w).
Proof.
  intros H. unfold onFulfilled, onRejected. unfold_monad. rewrite H. auto.
Qed.

Lemma step_settle_after_teardown a p w :
  isDestroyed (this w) = true ->
  step a (Fulfil p) w = (Normal tt, w) /\ step a (Reject p) w = (Normal tt, w).
Proof.
  intros H. destruct (settlement_after_teardown_is_noop w H) as [Hf Hr].
  unfold step, bind, gets. destruct (registered p w); auto.
Qed.

(** The classic handlers write [textState] whether or not the instance is
    still alive. *)
Lemma legacy_settlement_writes lw :
  LegacyButton.textState (LegacyButton.this (exec LegacyButton.onResolved lw))
    = LegacyButton.Resolved
  /\ LegacyButton.textState (LegacyButton.this (exec LegacyButton.onRejected lw))
     = LegacyButton.Rejected.
Proof. split; reflexivity. Qed.

(** C2, on the classic button: the action hands future 0 to [callback], the
    component is torn down while pending, then the future settles. The
    handler writes [textState] on the destroyed instance ('resolved', or
    'rejected'), where the Glimmer button, in the same run, stays as it
    was. *)
Theorem legacy_settlement_after_teardown_mutates :
  LegacyButton.states (Some (LegacyButton.hand_over (JsThenable 0)))
    [LegacyButton.Click 0; LegacyButton.Destroy; LegacyButton.Fulfil 0]
    LegacyButton.init
  = [LegacyButton.Pending; LegacyButton.Pending; LegacyButton.Resolved]
  /\ LegacyButton.states (Some (LegacyButton.hand_over (JsThenable 0)))
       [LegacyButton.Click 0; LegacyButton.Destroy; LegacyButton.Reject 0]
       LegacyButton.init
     = [LegacyButton.Pending; LegacyButton.Pending; LegacyButton.Rejected]
  /\ states save_args [Click 0; Destroy; Fulfil 0] init
     = [Pending; Pending; Pending]
  /\ states save_args [Click 0; Destroy; Reject 0] init
     = [Pending; Pending; Pending].
Proof. repeat split. Qed.

(** ** The two calling conventions *)

(** A click on the Glimmer button whose callback returns future [p], then
    the settlement of [p]. *)
Lemma glimmer_settling_run a f p i' (fulfils : bool) e w :
  onClick a = Some f ->
  f (value a) (this w) = (Normal (JsThenable p), i') ->
  isDestroyed i' = false ->
  preventConcurrency a = false \/ state (this w) <> Pending ->
  states a [Click e; if fulfils then Fulfil p else Reject p] w
  = [Pending; if fulfils then Fulfilled else Rejected].
Proof.
  intros Hf Hr Hd Hg.
  cbn [states]. cbv zeta.
  assert (Hclick : exec (step a (Click e)) w
            = {| this := {| state := Pending; isDestroyed := false |};
                 log := (log w ++ [Invoked (value a); Registered p])
                        ++ (if bubble a then [] else [StopPropagation e]) |}).
  { unfold exec. cbn [step].
    rewrite (handleClick_dispatch a e w f Hf Hg), Hr. simpl. rewrite Hd. simpl.
    rewrite <- !app_assoc. reflexivity. }
  rewrite Hclick. cbn [this state]. f_equal.
  set (w1 := {| this := _; log := _ |}).
  assert (Hreg : registered p w1 = true).
  { subst w1. unfold registered. simpl. rewrite !existsb_app. simpl.
    rewrite Nat.eqb_refl. simpl. rewrite orb_true_r. reflexivity. }
  assert (Hlive : isDestroyed (this w1) = false) by reflexivity.
  destruct fulfils; unfold exec, step, bind, gets; rewrite Hreg.
  - rewrite (onFulfilled_live w1 Hlive). reflexivity.
  - rewrite (onRejected_live w1 Hlive). reflexivity.
Qed.

(** A click on the classic button whose receiver hands future [p] to
    [callback], then the settlement of [p]. *)
Lemma legacy_settling_run p (fulfils : bool) evt lw :
  LegacyButton.states (Some (LegacyButton.hand_over (JsThenable p)))
    [LegacyButton.Click evt;
     if fulfils then LegacyButton.Fulfil p else LegacyButton.Reject p] lw
  = [LegacyButton.Pending;
     if fulfils then LegacyButton.Resolved else LegacyButton.Rejected].
Proof.
  cbn [LegacyButton.states]. cbv zeta.
  set (w1 := exec (LegacyButton.step _ (LegacyButton.Click evt)) lw).
  assert (Hstate : LegacyButton.textState (LegacyButton.this w1)
                   = LegacyButton.Pending).
  { subst w1. cbn [LegacyButton.step]. unfold LegacyButton.click.
    unfold_legacy. unfold_monad.
    destruct (LegacyButton.toggle (LegacyButton.this lw)); reflexivity. }
  assert (Hreg : LegacyButton.registered p w1 = true).
  { subst w1. cbn [LegacyButton.step]. unfold LegacyButton.click.
    unfold LegacyButton.registered. unfold_legacy. unfold_monad.
    destruct (LegacyButton.toggle (LegacyButton.this lw)); simpl;
      rewrite !existsb_app; simpl; rewrite Nat.eqb_refl;
      apply orb_true_iff; right; reflexivity. }
  rewrite Hstate. f_equal.
  destruct fulfils; cbn [LegacyButton.step]; unfold exec, bind, gets;
    rewrite Hreg; reflexivity.
Qed.

(** C9. For a future that settles, the single-argument convention (the
    callback returns the future) and the three-argument one (the receiver
    hands the future to [callback]) take the state through the same
    operations of the state machine: [transitionToPending], then
    [settleFulfilled] or [settleRejected]. The instance is live and the
    dispatch is one the single-flight guard lets through; the classic
    'resolved' is the fulfilled state. *)
Theorem dispatch_conventions_agree a f p i' (fulfils : bool) e evt w lw :
  onClick a = Some f ->
  f (value a) (this w) = (Normal (JsThenable p), i') ->
  isDestroyed i' = false ->
  preventConcurrency a = false \/ state (this w) <> Pending ->
  let glimmer :=
    map Button_abs
      (states a [Click e; if fulfils then Fulfil p else Reject p] w) in
  let classic :=
    map LegacyButton_abs
      (LegacyButton.states (Some (LegacyButton.hand_over (JsThenable p)))
         [LegacyButton.Click evt;
          if fulfils then LegacyButton.Fulfil p else LegacyButton.Reject p] lw) in
  glimmer = StateMachine.settling_run fulfils (Button_abs (state (this w)))
  /\ classic
     = StateMachine.settling_run fulfils
         (LegacyButton_abs (LegacyButton.textState (LegacyButton.this lw)))
  /\ glimmer = classic.
Proof.
  intros Hf Hr Hd Hg glimmer classic. subst glimmer classic.
  rewrite (glimmer_settling_run a f p i' fulfils e w Hf Hr Hd Hg).
  rewrite (legacy_settling_run p fulfils evt lw).
  destruct fulfils; repeat split.
Qed.

(** ** The scenarios of the specification, run *)

(** Scenario A: "Save", then "Saving..." while pending, then "Saved". *)
Example scenario_A :
  text save_args (this init) = JsString "Save"
  /\ states save_args [Click 0; Fulfil 0] init = [Pending; Fulfilled]
  /\ map (fun s => text save_args {| state := s; isDestroyed := false |})
         (states save_args [Click 0; Fulfil 0] init)
     = [JsString "Saving..."; JsString "Saved"].
Proof. repeat split. Qed.

(** Scenario B: the future rejects; no [rejectedText], so the label falls
    back to "Save". *)
Example scenario_B :
  states save_args [Click 0; Reject 0] init = [Pending; Rejected]
  /\ text save_args {| state := Rejected; isDestroyed := false |}
     = JsString "Save"
  /\ isRejected {| state := Rejected; isDestroyed := false |} = true
  /\ isSettled {| state := Rejected; isDestroyed := false |} = true.
Proof. repeat split. Qed.

(** A second click while pending: the callback has been called once. *)
Example second_click_while_pending :
  let w1 := exec (handleClick save_args 0) init in
  let w2 := exec (handleClick save_args 1) w1 in
  invoked (log w2) = [JsString "doc"]
  /\ stopped (log w2) = [0; 1]
  /\ state (this w2) = Pending.
Proof. repeat split. Qed.

(** A callback that throws: the fault goes to the caller, the state stays,
    and [stopPropagation] is not reached. *)
Example callback_fault :
  let a := {| _disabled := None; active := false; bubble := false;
              iconActive := JsNull; iconInactive := JsNull; value := JsNull;
              preventConcurrency := true;
              onClick := Some (throwing (JsString "boom"));
              args := ∅ |} in
  handleClick a 0 init
  = (Throw (JsString "boom"),
     {| this := this init; log := [Invoked JsNull] |}).
Proof. reflexivity. Qed.

(** ** The theorems at concrete inputs *)

Lemma handleClick_pending_is_suppressed_witness :
  invoked (log (exec (handleClick save_args 7) pending_world))
    = invoked (log pending_world)
  /\ state (this (exec (handleClick save_args 7) pending_world)) = Pending
  /\ this (exec (handleClick save_args 7) pending_world) = this pending_world.
Proof.
  apply (handleClick_pending_is_suppressed save_args 7 pending_world).
  - reflexivity.
  - reflexivity.
  - simpl. discriminate.
Defined.

Lemma handleClick_without_onClick_returns_witness :
  handleClick default_args 7 pending_world = (Normal tt, pending_world)
  /\ state (this (exec (handleClick default_args 7) pending_world)) = Pending
  /\ stopped (log (exec (handleClick default_args 7) pending_world))
     = stopped (log pending_world).
Proof.
  apply (handleClick_without_onClick_returns default_args 7 pending_world).
  reflexivity.
Defined.

Lemma disabled_override_sets_attribute_only_witness :
  __disabled disabled_args (this init) = true
  /\ (invoked (log (exec (handleClick disabled_args 7) init)) = invoked (log init)
      <-> onClick disabled_args = None
          \/ (preventConcurrency disabled_args = true
              /\ state (this init) = Pending)).
Proof.
  apply (disabled_override_sets_attribute_only disabled_args 7 init).
  reflexivity.
Defined.

Lemma handleClick_stops_propagation_witness :
  (exists l, log (exec (handleClick save_args 7) init) = l ++ [StopPropagation 7])
  /\ In 7 (stopped (log (exec (handleClick save_args 7) init))).
Proof.
  apply (handleClick_stops_propagation save_args 7 init
           (returning (JsThenable 0))); reflexivity.
Defined.

Lemma text_label_or_default_by_getter_witness :
  (text save_args (this pending_world) = JsString "Saving..."
   /\ text blank_pending_args (this pending_world) = JsString "Save")
  /\ (LegacyButton.text blank_pending_legacy = JsString EmptyString
      /\ LegacyButton.text blank_legacy = JsString "Save").
Proof.
  split; split.
  - apply (proj1 (proj1 (text_label_or_default_by_getter save_args
                           (this pending_world) blank_legacy))).
    reflexivity.
  - apply (proj2 (proj1 (text_label_or_default_by_getter blank_pending_args
                           (this pending_world) blank_legacy))).
    reflexivity.
  - apply (proj1 (proj2 (text_label_or_default_by_getter save_args
                           (this pending_world) blank_pending_legacy))).
    vm_compute. discriminate.
  - apply (proj2 (proj2 (text_label_or_default_by_getter save_args
                           (this pending_world) blank_legacy))).
    reflexivity.
Defined.

Lemma resetState_idle_idempotent_witness :
  completion (LegacyButton.resetState_in LegacyButton.Asserting)
    {| LegacyButton.this := save_legacy; LegacyButton.log := [] |}
  = Normal tt
  /\ LegacyButton.textState
       (LegacyButton.this
          (exec (LegacyButton.resetState_in LegacyButton.Asserting)
             {| LegacyButton.this := save_legacy; LegacyButton.log := [] |}))
     = LegacyButton.Default
  /\ LegacyButton.isDestroyed
       (LegacyButton.this
          (exec (LegacyButton.resetState_in LegacyButton.Asserting)
             {| LegacyButton.this := save_legacy; LegacyButton.log := [] |}))
     = false
  /\ exec (LegacyButton.resetState_in LegacyButton.Asserting)
       (exec (LegacyButton.resetState_in LegacyButton.Asserting)
          {| LegacyButton.this := save_legacy; LegacyButton.log := [] |})
     = exec (LegacyButton.resetState_in LegacyButton.Asserting)
         {| LegacyButton.this := save_legacy; LegacyButton.log := [] |}.
Proof.
  apply (proj2 (resetState_idle_idempotent pending_world LegacyButton.Asserting
                  {| LegacyButton.this := save_legacy; LegacyButton.log := [] |})).
  reflexivity.
Defined.

Lemma icon_is_truthy_override_or_by_active_witness :
  icon blank_icon_args = JsString "star-filled".
Proof.
  apply (proj1 (proj2 (icon_is_truthy_override_or_by_active blank_icon_args)));
    reflexivity.
Defined.

Lemma click_toggles_active_first_witness :
  LegacyButton.active
    (LegacyButton.this (exec (LegacyButton.click None 7) star_world)) = true
  /\ LegacyButton.icon
       (LegacyButton.this (exec (LegacyButton.click None 7) star_world))
     = JsString "star-filled".
Proof.
  destruct (click_toggles_active_first None 7 star_world eq_refl)
    as (_ & _ & H).
  destruct (H JsUndefined (or_introl eq_refl)) as [Ha Hi].
  split; [exact Ha | exact (Hi eq_refl)].
Defined.

Lemma dispatch_conventions_agree_witness :
  map Button_abs (states save_args [Click 7; Fulfil 0] init)
  = map LegacyButton_abs
      (LegacyButton.states (Some (LegacyButton.hand_over (JsThenable 0)))
         [LegacyButton.Click 7; LegacyButton.Fulfil 0] LegacyButton.init).
Proof.
  apply (dispatch_conventions_agree save_args (returning (JsThenable 0)) 0
           (this init) true 7 7 init LegacyButton.init).
  - reflexivity.
  - reflexivity.
  - reflexivity.
  - right. simpl. discriminate.
Defined.

(** * Further properties of the two components *)

(** ** [handleClick], branch by branch *)

Lemma handleClick_cases a w :
  onClick a = None
  \/ (exists f, onClick a = Some f
                /\ preventConcurrency a = true /\ state (this w) = Pending)
  \/ (exists f, onClick a = Some f
                /\ (preventConcurrency a = false \/ state (this w) <> Pending)).
Proof.
  destruct (onClick a) as [f|]; [right|now left].
  destruct (preventConcurrency a) eqn:Hp.
  - destruct (isPending (this w)) eqn:Hs.
    + left. exists f. repeat split. now apply isPending_iff.
    + right. exists f. split; [reflexivity|]. right. intros H.
      apply isPending_iff in H. congruence.
  - right. exists f. auto.
Qed.

Lemma dispatches_none a i : onClick a = None -> dispatches a i = false.
Proof. unfold dispatches, has_onClick. intros ->. reflexivity. Qed.

Lemma dispatches_gated a i f :
  onClick a = Some f -> preventConcurrency a = true -> state i = Pending ->
  dispatches a i = false.
Proof.
  unfold dispatches, has_onClick. intros -> -> H.
  rewrite (isPending_true _ H). reflexivity.
Qed.

Lemma dispatches_open a w f :
  onClick a = Some f ->
  preventConcurrency a = false \/ state (this w) <> Pending ->
  dispatches a (this w) = true.
Proof.
  unfold dispatches, has_onClick. intros -> H.
  rewrite (not_gated_test a w H). reflexivity.
Qed.

Lemma dispatches_inv a w :
  dispatches a (this w) = true ->
  exists f, onClick a = Some f
            /\ (preventConcurrency a = false \/ state (this w) <> Pending).
Proof.
  intros H. destruct (handleClick_cases a w) as [Hn | [(f & Hf & Hp & Hs) | Hd]].
  - rewrite (dispatches_none a _ Hn) in H. discriminate.
  - rewrite (dispatches_gated a _ f Hf Hp Hs) in H. discriminate.
  - exact Hd.
Qed.

Lemma registered_log p i l1 l2 :
  registered p {| this := i; log := l1 ++ l2 |}
  = registered p {| this := i; log := l1 |}
    || existsb (fun x => match x with
                         | Registered q => Nat.eqb p q
                         | _ => false
                         end) l2.
Proof. unfold registered. simpl. apply existsb_app. Qed.

Lemma handleClick_invoked_dispatches a e w :
  invoked (log (exec (handleClick a e) w))
  = invoked (log w) ++ (if dispatches a (this w) then [value a] else []).
Proof.
  destruct (handleClick_cases a w) as [Hn | [(f & Hf & Hp & Hs) | (f & Hf & Hg)]].
  - rewrite (dispatches_none a _ Hn). unfold exec, handleClick. rewrite Hn.
    simpl. now rewrite app_nil_r.
  - rewrite (dispatches_gated a _ f Hf Hp Hs). unfold exec.
    rewrite (handleClick_gated a e w Hs Hp), Hf. simpl.
    destruct (bubble a); simpl; rewrite ?invoked_app; simpl;
      now rewrite ?app_nil_r.
  - rewrite (dispatches_open a w f Hf Hg).
    apply (handleClick_dispatch_invoked a e w f Hf Hg).
Qed.

(** X1. One activation calls the external callback at most once, always
    with [value], and it does so exactly when an [onClick] is configured and
    the single-flight test lets the click through. *)
Theorem handleClick_calls_at_most_once a e w :
  invoked (log (exec (handleClick a e) w))
  = invoked (log w) ++ (if dispatches a (this w) then [value a] else []).
Proof. apply handleClick_invoked_dispatches. Qed.

(** X2. A value the callback returns is tracked only if its [then] is a
    function and the instance is still alive when the callback returns.
    Otherwise the handler writes nothing to the instance and registers on
    no future. *)
Theorem handleClick_ignores_untracked_result a e w f v i' :
  onClick a = Some f ->
  dispatches a (this w) = true ->
  f (value a) (this w) = (Normal v, i') ->
  then_is_function v = false \/ isDestroyed i' = true ->
  completion (handleClick a e) w = Normal tt
  /\ this (exec (handleClick a e) w) = i'
  /\ (forall p, registered p (exec (handleClick a e) w) = registered p w).
Proof.
  intros Hf Hd Hr Hu.
  destruct (dispatches_inv a w Hd) as (f' & Hf' & Hg).
  assert (f' = f) by congruence. subst f'.
  unfold completion, exec. rewrite (handleClick_dispatch a e w f Hf Hg), Hr.
  simpl. split; [reflexivity|].
  assert (Htest : then_is_function v && negb (isDestroyed i') = false).
  { destruct Hu as [-> | ->]; [reflexivity | apply andb_false_r]. }
  rewrite Htest. split; [reflexivity|].
  intros p. rewrite !registered_log.
  replace (existsb _ (if bubble a then [] else [StopPropagation e])) with false
    by (destruct (bubble a); reflexivity).
  rewrite orb_false_r.
  replace (existsb _ match v with
                     | JsThenable p0 => if isDestroyed i' then [] else [Registered p0]
                     | _ => []
                     end) with false.
  - simpl. rewrite !orb_false_r. unfold registered. reflexivity.
  - destruct v; try reflexivity.
    destruct Hu as [Hu | Hu]; [discriminate | rewrite Hu; reflexivity].
Qed.

(** X3. A fault of the callback is not caught: the handler completes with
    the same throw, writes nothing to the instance, registers on no future
    and does not reach [stopPropagation]. *)
Theorem handleClick_fault_propagates a e w f x i' :
  onClick a = Some f ->
  dispatches a (this w) = true ->
  f (value a) (this w) = (Throw x, i') ->
  completion (handleClick a e) w = Throw x
  /\ this (exec (handleClick a e) w) = i'
  /\ stopped (log (exec (handleClick a e) w)) = stopped (log w)
  /\ (forall p, registered p (exec (handleClick a e) w) = registered p w).
Proof.
  intros Hf Hd Hr.
  destruct (dispatches_inv a w Hd) as (f' & Hf' & Hg).
  assert (f' = f) by congruence. subst f'.
  unfold completion, exec. rewrite (handleClick_dispatch a e w f Hf Hg), Hr.
  simpl. repeat split.
  - rewrite stopped_app. simpl. now rewrite app_nil_r.
  - intros p. rewrite registered_log. simpl. rewrite orb_false_r.
    unfold registered. reflexivity.
Qed.

(** X4. [stopPropagation] is called once, on the event of the activation,
    exactly when an [onClick] is configured, [bubble] is false and the
    handler completes; the single-flight test has no say in it. *)
Theorem handleClick_stopPropagation_exactly a e w :
  stopped (log (exec (handleClick a e) w))
  = stopped (log w)
    ++ (if has_onClick a && negb (bubble a)
           && is_normal (completion (handleClick a e) w)
        then [e] else []).
Proof.
  destruct (handleClick_cases a w) as [Hn | [(f & Hf & Hp & Hs) | (f & Hf & Hg)]].
  - unfold has_onClick, completion, exec, handleClick. rewrite Hn. simpl.
    now rewrite app_nil_r.
  - unfold has_onClick, completion, exec.
    rewrite (handleClick_gated a e w Hs Hp), Hf. simpl.
    destruct (bubble a); simpl; rewrite ?stopped_app; simpl;
      now rewrite ?app_nil_r.
  - unfold has_onClick, completion, exec.
    rewrite (handleClick_dispatch a e w f Hf Hg), Hf.
    destruct (f (value a) (this w)) as [[v|x] i]; simpl.
    + rewrite !stopped_app. simpl.
      replace (stopped match v with
                       | JsThenable p => if isDestroyed i then [] else [Registered p]
                       | _ => []
                       end) with (@nil Event)
        by (destruct v; try reflexivity; destruct (isDestroyed i); reflexivity).
      rewrite !app_nil_r. destruct (bubble a); simpl; now rewrite ?app_nil_r.
    + rewrite stopped_app, andb_false_r. simpl. reflexivity.
Qed.

(** ** The gate of [handleClick] and the [disabled] attribute *)

(** X5. With no [_disabled] override, the handler and the attribute agree:
    the callback is called exactly when an [onClick] is configured and
    [__disabled] is false. *)
Theorem handleClick_follows_attribute_without_override a e w :
  _disabled a = None ->
  invoked (log (exec (handleClick a e) w))
  = invoked (log w)
    ++ (if has_onClick a && negb (__disabled a (this w))
        then [value a] else []).
Proof.
  intros Hd. rewrite handleClick_invoked_dispatches.
  unfold dispatches, __disabled. rewrite Hd.
  destruct (has_onClick a), (preventConcurrency a), (isPending (this w));
    reflexivity.
Qed.

(** X6. An override that un-disables does not open the gate: with
    [_disabled = false], [preventConcurrency] and a pending state the
    attribute is off, yet the activation leaves the callback uncalled and
    the instance as it was. *)
Theorem handleClick_gate_ignores_enabling_override a e w :
  _disabled a = Some false ->
  preventConcurrency a = true ->
  state (this w) = Pending ->
  __disabled a (this w) = false
  /\ invoked (log (exec (handleClick a e) w)) = invoked (log w)
  /\ this (exec (handleClick a e) w) = this w.
Proof.
  intros Hd Hp Hs. split; [unfold __disabled; now rewrite Hd|].
  unfold exec. rewrite (handleClick_gated a e w Hs Hp).
  destruct (onClick a); [destruct (bubble a)|]; simpl;
    rewrite ?invoked_app, ?app_nil_r; auto.
Qed.

(** ** Settlement, reset and teardown over time *)

(** A settlement that fires on a live instance writes its state and nothing
    else. *)
Lemma step_settlement_live a s w :
  isDestroyed (this w) = false ->
  settles_registered w s = true ->
  exists st, settled_state s = Some st
    /\ exec (step a s) w
       = {| this := {| state := st; isDestroyed := false |}; log := log w |}.
Proof.
  intros Hl Hr. destruct s as [e|p|p| |]; try discriminate; simpl in Hr.
  - exists Fulfilled. split; [reflexivity|].
    unfold exec, step, bind, gets. rewrite Hr, (onFulfilled_live w Hl). reflexivity.
  - exists Rejected. split; [reflexivity|].
    unfold exec, step, bind, gets. rewrite Hr, (onRejected_live w Hl). reflexivity.
Qed.

Lemma settles_registered_log w w' s :
  log w' = log w -> settles_registered w' s = settles_registered w s.
Proof.
  intros H. destruct s; try reflexivity; simpl; unfold registered; now rewrite H.
Qed.

Lemma forallb_settles_registered_log w w' ss :
  log w' = log w ->
  forallb (settles_registered w') ss = forallb (settles_registered w) ss.
Proof.
  intros H. induction ss as [|s ss IH]; [reflexivity|].
  simpl. now rewrite IH, (settles_registered_log w w' s H).
Qed.

Lemma settlements_live a ss s w :
  isDestroyed (this w) = false ->
  forallb (settles_registered w) (ss ++ [s]) = true ->
  Some (state (this (run a (ss ++ [s]) w))) = settled_state s.
Proof.
  revert w. induction ss as [|s0 ss IH]; intros w Hl Hr.
  - simpl in *. apply andb_true_iff in Hr. destruct Hr as [Hr _].
    destruct (step_settlement_live a s w Hl Hr) as (st & Hst & Hw).
    rewrite Hw, Hst. reflexivity.
  - simpl in Hr. apply andb_true_iff in Hr. destruct Hr as [Hr0 Hr].
    destruct (step_settlement_live a s0 w Hl Hr0) as (st & Hst & Hw).
    simpl. rewrite Hw. apply IH; [reflexivity|].
    rewrite (forallb_settles_registered_log w); [exact Hr | reflexivity].
Qed.

(** X7. The last settlement wins: on a live instance, after any run of
    settlements of registered futures the state is the one the last of them
    asks for, whatever the order the futures were dispatched in. *)
Theorem last_settlement_wins a ss s w :
  isDestroyed (this w) = false ->
  forallb (settles_registered w) (ss ++ [s]) = true ->
  Some (state (this (run a (ss ++ [s]) w))) = settled_state s.
Proof. apply settlements_live. Qed.

(** X8. [resetState] does not cancel a future: after a reset while the
    future is outstanding the state is the idle one, and the settlement that
    follows still moves it to fulfilled or rejected. *)
Theorem reset_does_not_cancel a p w :
  isDestroyed (this w) = false ->
  registered p w = true ->
  states a [Reset; Fulfil p] w = [Default; Fulfilled]
  /\ states a [Reset; Reject p] w = [Default; Rejected].
Proof.
  intros Hl Hr.
  assert (Hreset : exec (step a Reset) w
            = {| this := {| state := Default; isDestroyed := false |};
                 log := log w |}).
  { unfold exec, step, resetState. unfold_monad. simpl. now rewrite Hl. }
  cbn [states]. cbv zeta. rewrite Hreset. cbn [this state].
  set (w1 := {| this := _; log := _ |}).
  assert (Hr1 : registered p w1 = true) by exact Hr.
  assert (Hl1 : isDestroyed (this w1) = false) by reflexivity.
  split; f_equal; unfold exec, step, bind, gets; rewrite Hr1.
  - now rewrite (onFulfilled_live w1 Hl1).
  - now rewrite (onRejected_live w1 Hl1).
Qed.

Lemma settlements_after_teardown a ss w :
  isDestroyed (this w) = true ->
  forallb is_settlement ss = true ->
  run a ss w = w.
Proof.
  intros Hd. induction ss as [|s ss IH]; intros Hs; [reflexivity|].
  simpl in Hs. apply andb_true_iff in Hs. destruct Hs as [Hs0 Hs].
  simpl.
  assert (Hstep : exec (step a s) w = w).
  { destruct s as [e|p|p| |]; try discriminate; unfold exec.
    - now rewrite (proj1 (step_settle_after_teardown a p w Hd)).
    - now rewrite (proj2 (step_settle_after_teardown a p w Hd)). }
  rewrite Hstep. apply IH, Hs.
Qed.

(** X9. Once the instance of the Glimmer button is torn down, settlements
    are inert: whatever futures settle afterwards, in whatever order, the
    instance and the log stay as they were at teardown. *)
Theorem teardown_silences_settlements a ss w :
  forallb is_settlement ss = true ->
  run a (Destroy :: ss) w = exec destroy w.
Proof.
  intros Hs. cbn [run step]. apply settlements_after_teardown; [reflexivity|exact Hs].
Qed.

Lemma registered_extends p w w' l :
  log w' = log w ++ l -> registered p w = true -> registered p w' = true.
Proof.
  unfold registered. intros -> H. rewrite existsb_app, H. reflexivity.
Qed.

(** ** What can be reached *)

Lemma tracked_or_idle_extends w w' l :
  this w' = this w -> log w' = log w ++ l ->
  tracked_or_idle w -> tracked_or_idle w'.
Proof.
  intros Ht Hl [H | [p H]]; [left; now rewrite Ht|].
  right. exists p. apply (registered_extends p w w' l Hl H).
Qed.

Lemma tracked_or_idle_extends3 w l1 l2 l3 :
  tracked_or_idle w ->
  tracked_or_idle {| this := this w; log := ((log w ++ l1) ++ l2) ++ l3 |}.
Proof.
  apply (tracked_or_idle_extends w _ (l1 ++ l2 ++ l3)); [reflexivity|].
  simpl. now rewrite <- !app_assoc.
Qed.

Lemma step_keeps_tracked_or_idle a s w :
  (forall f, onClick a = Some f -> forall v i, snd (f v i) = i) ->
  tracked_or_idle w -> tracked_or_idle (exec (step a s) w).
Proof.
  intros Hframe Hinv. destruct s as [e|p|p| |].
  - cbn [step].
    destruct (handleClick_cases a w) as [Hn | [(f & Hf & Hp & Hs) | (f & Hf & Hg)]].
    + unfold exec, handleClick. rewrite Hn. exact Hinv.
    + unfold exec. rewrite (handleClick_gated a e w Hs Hp), Hf.
      destruct (bubble a); [exact Hinv|].
      now apply (tracked_or_idle_extends w _ [StopPropagation e]).
    + unfold exec. rewrite (handleClick_dispatch a e w f Hf Hg).
      pose proof (Hframe f Hf (value a) (this w)) as Hi.
      destruct (f (value a) (this w)) as [[v|x] i]; simpl in Hi; subst i; simpl.
      * destruct v as [ | |b|n|s| |p]; simpl;
          try (now apply tracked_or_idle_extends3).
        destruct (isDestroyed (this w)) eqn:Hd; simpl.
        -- now apply tracked_or_idle_extends3.
        -- right. exists p. rewrite !registered_log. simpl.
           rewrite Nat.eqb_refl. simpl. now rewrite orb_true_r.
      * now apply (tracked_or_idle_extends w _ [Invoked (value a)]).
  - unfold exec, step, bind, gets. destruct (registered p w) eqn:Hr; [|exact Hinv].
    right. exists p. unfold onFulfilled. unfold_monad.
    destruct (negb (isDestroyed (this w))); exact Hr.
  - unfold exec, step, bind, gets. destruct (registered p w) eqn:Hr; [|exact Hinv].
    right. exists p. unfold onRejected. unfold_monad.
    destruct (negb (isDestroyed (this w))); exact Hr.
  - destruct Hinv as [H | [p H]]; [left; exact H | right; exists p; exact H].
  - left. reflexivity.
Qed.

Lemma run_keeps_tracked_or_idle a ss w :
  (forall f, onClick a = Some f -> forall v i, snd (f v i) = i) ->
  tracked_or_idle w -> tracked_or_idle (run a ss w).
Proof.
  intros Hframe. revert w. induction ss as [|s ss IH]; intros w Hinv; [exact Hinv|].
  simpl. apply IH. now apply step_keeps_tracked_or_idle.
Qed.

(** X11. With a callback that does not itself write to the instance, the
    state machine is driven by futures only: after any sequence of signals on
    a fresh instance, a state other than the idle one (pending, fulfilled,
    rejected) means that some future was registered on. *)
Theorem non_idle_state_has_a_future a ss :
  (forall f, onClick a = Some f -> forall v i, snd (f v i) = i) ->
  state (this (run a ss init)) <> Default ->
  exists p, registered p (run a ss init) = true.
Proof.
  intros Hframe Hs.
  destruct (run_keeps_tracked_or_idle a ss init Hframe) as [H | H].
  - left. reflexivity.
  - contradiction.
  - exact H.
Qed.

(** ** Bursts of clicks *)

Lemma clicks_while_gated a es w :
  preventConcurrency a = true ->
  state (this w) = Pending ->
  this (run a (map Click es) w) = this w
  /\ invoked (log (run a (map Click es) w)) = invoked (log w).
Proof.
  intros Hp. revert w. induction es as [|e es IH]; intros w Hs; [auto|].
  cbn [map run step].
  assert (Hthis : this (exec (handleClick a e) w) = this w).
  { unfold exec. rewrite (handleClick_gated a e w Hs Hp).
    destruct (onClick a); [destruct (bubble a)|]; reflexivity. }
  assert (Hinv : invoked (log (exec (handleClick a e) w)) = invoked (log w)).
  { rewrite handleClick_invoked_dispatches.
    destruct (onClick a) as [f|] eqn:Hf.
    - rewrite (dispatches_gated a _ f Hf Hp Hs). apply app_nil_r.
    - rewrite (dispatches_none a _ Hf). apply app_nil_r. }
  destruct (IH (exec (handleClick a e) w)) as [H1 H2]; [now rewrite Hthis|].
  rewrite H1, H2, Hthis, Hinv. auto.
Qed.

(** X12. Single flight: under [preventConcurrency], with a callback that
    returns a future and leaves the instance alone, a burst of clicks on a
    live button that is not pending calls the callback once, for the first
    click, and leaves the button pending. *)
Theorem burst_of_clicks_calls_once a f p e es w :
  onClick a = Some f ->
  preventConcurrency a = true ->
  (forall i, f (value a) i = (Normal (JsThenable p), i)) ->
  isDestroyed (this w) = false ->
  state (this w) <> Pending ->
  invoked (log (run a (map Click (e :: es)) w)) = invoked (log w) ++ [value a]
  /\ state (this (run a (map Click (e :: es)) w)) = Pending.
Proof.
  intros Hf Hp Hr Hl Hs. cbn [map run step].
  assert (Hg : preventConcurrency a = false \/ state (this w) <> Pending) by auto.
  assert (H1 : state (this (exec (handleClick a e) w)) = Pending).
  { unfold exec. rewrite (handleClick_dispatch a e w f Hf Hg), Hr. simpl.
    rewrite Hl. reflexivity. }
  destruct (clicks_while_gated a es _ Hp H1) as [Ht Hi].
  rewrite Hi, Ht, H1. split; [|reflexivity].
  rewrite handleClick_invoked_dispatches, (dispatches_open a w f Hf Hg).
  reflexivity.
Qed.

(** X13. Without the guard every click reaches the callback: with
    [preventConcurrency] false and an [onClick] configured, a run of clicks
    calls the callback once per click, each time with [value], whatever the
    state and whatever the callback does. *)
Theorem every_click_calls_without_guard a f es w :
  onClick a = Some f ->
  preventConcurrency a = false ->
  invoked (log (run a (map Click es) w))
  = invoked (log w) ++ repeat (value a) (length es).
Proof.
  intros Hf Hp. revert w. induction es as [|e es IH]; intros w.
  - simpl. now rewrite app_nil_r.
  - cbn [map run step]. rewrite IH, handleClick_invoked_dispatches.
    rewrite (dispatches_open a w f Hf (or_introl Hp)).
    rewrite <- app_assoc. reflexivity.
Qed.

(** ** Labels and flags along the way *)

Lemma js_or_same v : js_or v v = v.
Proof. unfold js_or. destruct (truthy v); reflexivity. Qed.

(** X14. [resetState] brings the label back to [defaultText]: after it the
    text is the [defaultText] argument itself, be it absent or empty, in the
    Glimmer button as in the classic one. *)
Theorem reset_restores_default_label a (w : World) (lw : LegacyButton.World) :
  text a (this (exec resetState w)) = prop (args a) "defaultText"
  /\ LegacyButton.text (LegacyButton.this (exec LegacyButton.resetState lw))
     = prop (LegacyButton.props (LegacyButton.this lw)) "defaultText".
Proof.
  split.
  - unfold text. simpl. apply js_or_same.
  - unfold LegacyButton.text, LegacyButton.getWithDefault. simpl.
    change ("default" +:+ "Text")%string with "defaultText"%string.
    destruct (prop (LegacyButton.props (LegacyButton.this lw)) "defaultText");
      reflexivity.
Qed.

(** X15. With no override and [preventConcurrency], the [disabled] attribute
    follows the future: a click whose callback returns a future turns
    [__disabled] on and leaves [isSettled] off; the settlement turns
    [__disabled] off and [isSettled] on, with [isFulfilled] or [isRejected]
    according to the outcome. *)
Theorem disabled_while_pending a f p i' (fulfils : bool) e w :
  _disabled a = None ->
  preventConcurrency a = true ->
  onClick a = Some f ->
  f (value a) (this w) = (Normal (JsThenable p), i') ->
  isDestroyed i' = false ->
  state (this w) <> Pending ->
  let w1 := run a [Click e] w in
  let w2 := run a [Click e; if fulfils then Fulfil p else Reject p] w in
  (__disabled a (this w1) = true /\ isPending (this w1) = true
   /\ isSettled (this w1) = false)
  /\ (__disabled a (this w2) = false /\ isPending (this w2) = false
      /\ isSettled (this w2) = true
      /\ isFulfilled (this w2) = fulfils
      /\ isRejected (this w2) = negb fulfils).
Proof.
  intros Hd Hp Hf Hr Hl Hs w1 w2.
  pose proof (glimmer_settling_run a f p i' fulfils e w Hf Hr Hl (or_intror Hs)) as H.
  change (states a [Click e; if fulfils then Fulfil p else Reject p] w)
    with [state (this w1); state (this w2)] in H.
  injection H as H1 H2.
  unfold __disabled, isSettled, isFulfilled, isRejected, isPending.
  rewrite Hd, Hp, H1, H2. destruct fulfils; repeat split.
Qed.

(** ** The classic button *)

(** [callback] writes [textState] and nothing else of the instance. *)
Lemma callback_writes_textState_only promise lw :
  exists s,
    LegacyButton.this (exec (LegacyButton.callback promise) lw)
    = LegacyButton.set_textState s (LegacyButton.this lw).
Proof.
  unfold_legacy. unfold_monad.
  destruct (truthy promise).
  - exists LegacyButton.Pending. destruct promise; reflexivity.
  - exists (LegacyButton.textState (LegacyButton.this lw)).
    destruct lw as [[] ?]; reflexivity.
Qed.

(** A click whose action is unbound, or bound to a receiver that hands a
    value to [callback]: [active] is negated under [toggle] and kept
    otherwise; [toggle] and the two icons stay. *)
Lemma legacy_click_frame action promise evt lw :
  action = None \/ action = Some (LegacyButton.hand_over promise) ->
  let i := LegacyButton.this (exec (LegacyButton.click action evt) lw) in
  LegacyButton.toggle i = LegacyButton.toggle (LegacyButton.this lw)
  /\ LegacyButton.active i
     = (if LegacyButton.toggle (LegacyButton.this lw)
        then negb (LegacyButton.active (LegacyButton.this lw))
        else LegacyButton.active (LegacyButton.this lw))
  /\ LegacyButton.iconActive i = LegacyButton.iconActive (LegacyButton.this lw)
  /\ LegacyButton.iconInactive i = LegacyButton.iconInactive (LegacyButton.this lw).
Proof.
  intros Hact i. subst i. destruct Hact as [-> | ->].
  - unfold exec, LegacyButton.click. unfold_legacy. unfold_monad.
    destruct (LegacyButton.toggle (LegacyButton.this lw)) eqn:Ht; simpl;
      rewrite ?Ht; auto.
  - set (w0 := {| LegacyButton.this :=
                    if LegacyButton.toggle (LegacyButton.this lw)
                    then LegacyButton.set_active
                           (negb (LegacyButton.active (LegacyButton.this lw)))
                           (LegacyButton.this lw)
                    else LegacyButton.this lw;
                  LegacyButton.log :=
                    LegacyButton.log lw
                    ++ [LegacyButton.SentAction
                          (LegacyButton.value (LegacyButton.this lw)) evt] |}).
    assert (Hc : exec (LegacyButton.click
                         (Some (LegacyButton.hand_over promise)) evt) lw
                 = exec (LegacyButton.callback promise) w0).
    { subst w0. unfold exec, LegacyButton.click, LegacyButton.sendAction,
        LegacyButton.hand_over, LegacyButton.toggleProperty_active,
        LegacyButton.update, LegacyButton.emit.
      unfold_monad.
      destruct (LegacyButton.toggle (LegacyButton.this lw)); reflexivity. }
    rewrite Hc.
    destruct (callback_writes_textState_only promise w0) as [s ->].
    subst w0. simpl.
    destruct (LegacyButton.toggle (LegacyButton.this lw)) eqn:Ht; simpl;
      rewrite ?Ht; auto.
Qed.

(** X16. Toggling is an involution: on a classic button with [toggle], two
    activations bring [active], and with it the icon, back to what they
    were; without [toggle] an activation leaves [active] alone. *)
Theorem toggle_twice_restores action promise evt1 evt2 lw :
  action = None \/ action = Some (LegacyButton.hand_over promise) ->
  let once := LegacyButton.this
                (LegacyButton.run action [LegacyButton.Click evt1] lw) in
  let twice := LegacyButton.this
                 (LegacyButton.run action
                    [LegacyButton.Click evt1; LegacyButton.Click evt2] lw) in
  (LegacyButton.toggle (LegacyButton.this lw) = false ->
   LegacyButton.active once = LegacyButton.active (LegacyButton.this lw))
  /\ (LegacyButton.toggle (LegacyButton.this lw) = true ->
      LegacyButton.active twice = LegacyButton.active (LegacyButton.this lw)
      /\ LegacyButton.icon twice = LegacyButton.icon (LegacyButton.this lw)).
Proof.
  intros Hact once twice. subst once twice. cbn [LegacyButton.run LegacyButton.step].
  destruct (legacy_click_frame action promise evt1 lw Hact) as (Ht1 & Ha1 & Hi1 & Hn1).
  destruct (legacy_click_frame action promise evt2
              (exec (LegacyButton.click action evt1) lw) Hact)
    as (Ht2 & Ha2 & Hi2 & Hn2).
  cbv zeta in *. split.
  - intros Ht. rewrite Ha1, Ht. reflexivity.
  - intros Ht. unfold LegacyButton.icon.
    rewrite Ha2, Ht1, Ht, Ha1, Ht, negb_involutive, Hi2, Hi1, Hn2, Hn1. auto.
Qed.

(** X17. The classic [callback] does not test for [then]: handed a truthy
    value whose [then] is not a function, the click sets [textState] to
    'pending', then faults with a TypeError, with no future registered that
    could take the button out of that state. *)
Theorem legacy_non_thenable_sticks_pending v evt lw :
  truthy v = true ->
  then_is_function v = false ->
  let w' := exec (LegacyButton.click (Some (LegacyButton.hand_over v)) evt) lw in
  completion (LegacyButton.click (Some (LegacyButton.hand_over v)) evt) lw
    = Throw (JsString "TypeError")
  /\ LegacyButton.textState (LegacyButton.this w') = LegacyButton.Pending
  /\ (forall p, LegacyButton.registered p w' = LegacyButton.registered p lw).
Proof.
  intros Ht Hn w'. subst w'.
  unfold completion, exec, LegacyButton.click, LegacyButton.registered.
  unfold_legacy. unfold_monad.
  destruct (LegacyButton.toggle (LegacyButton.this lw)); simpl; rewrite Ht;
    destruct v; try discriminate; simpl; repeat split;
    intros p; rewrite existsb_app; simpl; apply orb_false_r.
Qed.

Lemma legacy_click_sends promise evt lw :
  LegacyButton.sent
    (LegacyButton.log
       (exec (LegacyButton.click (Some (LegacyButton.hand_over promise)) evt) lw))
  = S (LegacyButton.sent (LegacyButton.log lw)).
Proof.
  unfold exec, LegacyButton.click, LegacyButton.sent.
  unfold_legacy. unfold_monad.
  destruct (LegacyButton.toggle (LegacyButton.this lw)); simpl;
    destruct (truthy promise); simpl;
    try (destruct promise; simpl);
    rewrite ?List.filter_app, ?length_app; simpl; lia.
Qed.

(** X18. The classic button has no single-flight guard: every click sends
    the action to its receiver, whatever [textState] is, so a run of clicks
    reaches the receiver once per click. *)
Theorem legacy_every_click_sends promise evts lw :
  LegacyButton.sent
    (LegacyButton.log
       (LegacyButton.run (Some (LegacyButton.hand_over promise))
          (map LegacyButton.Click evts) lw))
  = LegacyButton.sent (LegacyButton.log lw) + length evts.
Proof.
  revert lw. induction evts as [|evt evts IH]; intros lw.
  - simpl. lia.
  - cbn [map LegacyButton.run LegacyButton.step]. rewrite IH, legacy_click_sends.
    simpl. lia.
Qed.

(** X19. The two generations resolve the same label from the same table in
    the idle, pending and rejected states whenever the label of the state is
    undefined or truthy. *)
Theorem text_agrees_across_generations a i li :
  LegacyButton.props li = args a ->
  Button_abs (state i) = LegacyButton_abs (LegacyButton.textState li) ->
  state i <> Fulfilled ->
  (let v := prop (args a) (state_name (state i) +:+ "Text") in
   v = JsUndefined \/ truthy v = true) ->
  LegacyButton.text li = text a i.
Proof.
  intros Hp Hs Hf Hv.
  assert (Hk : (LegacyButton.textState_name (LegacyButton.textState li) +:+ "Text")%string
               = (state_name (state i) +:+ "Text")%string).
  { destruct (state i), (LegacyButton.textState li); try discriminate;
      try reflexivity; contradiction. }
  unfold LegacyButton.text, LegacyButton.getWithDefault, text, js_or.
  rewrite Hk, Hp. cbv zeta in Hv.
  destruct Hv as [-> | Hv]; [reflexivity|].
  rewrite Hv.
  destruct (prop (args a) (state_name (state i) +:+ "Text")); try reflexivity.
  discriminate.
Qed.

(** ** The further properties at concrete inputs *)

Lemma handleClick_ignores_untracked_result_witness :
  completion (handleClick plain_args 7) init = Normal tt
  /\ this (exec (handleClick plain_args 7) init) = this init
  /\ (forall p, registered p (exec (handleClick plain_args 7) init)
                = registered p init).
Proof.
  apply (handleClick_ignores_untracked_result plain_args 7 init
           (returning (JsString "done")) (JsString "done") (this init)).
  - reflexivity.
  - reflexivity.
  - reflexivity.
  - left. reflexivity.
Defined.

Lemma handleClick_fault_propagates_witness :
  completion (handleClick faulty_args 7) init = Throw (JsString "boom")
  /\ this (exec (handleClick faulty_args 7) init) = this init
  /\ stopped (log (exec (handleClick faulty_args 7) init)) = stopped (log init)
  /\ (forall p, registered p (exec (handleClick faulty_args 7) init)
                = registered p init).
Proof.
  apply (handleClick_fault_propagates faulty_args 7 init
           (throwing (JsString "boom")) (JsString "boom") (this init));
    reflexivity.
Defined.

Lemma handleClick_follows_attribute_without_override_witness :
  invoked (log (exec (handleClick save_args 7) pending_world))
  = invoked (log pending_world)
    ++ (if has_onClick save_args && negb (__disabled save_args (this pending_world))
        then [value save_args] else []).
Proof.
  apply (handleClick_follows_attribute_without_override save_args 7 pending_world).
  reflexivity.
Defined.

Lemma handleClick_gate_ignores_enabling_override_witness :
  __disabled enabled_args (this pending_world) = false
  /\ invoked (log (exec (handleClick enabled_args 7) pending_world))
     = invoked (log pending_world)
  /\ this (exec (handleClick enabled_args 7) pending_world) = this pending_world.
Proof.
  apply (handleClick_gate_ignores_enabling_override enabled_args 7 pending_world);
    reflexivity.
Defined.

Lemma last_settlement_wins_witness :
  Some (state (this (run save_args ([Fulfil 0] ++ [Reject 0]) pending_world)))
  = settled_state (Reject 0).
Proof.
  apply (last_settlement_wins save_args [Fulfil 0] (Reject 0) pending_world);
    reflexivity.
Defined.

Lemma reset_does_not_cancel_witness :
  states save_args [Reset; Fulfil 0] pending_world = [Default; Fulfilled]
  /\ states save_args [Reset; Reject 0] pending_world = [Default; Rejected].
Proof.
  apply (reset_does_not_cancel save_args 0 pending_world); reflexivity.
Defined.

Lemma teardown_silences_settlements_witness :
  run save_args (Destroy :: [Fulfil 0; Reject 0]) pending_world
  = exec destroy pending_world.
Proof.
  apply (teardown_silences_settlements save_args [Fulfil 0; Reject 0] pending_world).
  reflexivity.
Defined.

Lemma non_idle_state_has_a_future_witness :
  exists p, registered p (run save_args [Click 7; Fulfil 0] init) = true.
Proof.
  apply (non_idle_state_has_a_future save_args [Click 7; Fulfil 0]).
  - intros f H v i. injection H as <-. reflexivity.
  - vm_compute. discriminate.
Defined.

Lemma burst_of_clicks_calls_once_witness :
  invoked (log (run save_args (map Click (7 :: [8; 9])) init))
  = invoked (log init) ++ [value save_args]
  /\ state (this (run save_args (map Click (7 :: [8; 9])) init)) = Pending.
Proof.
  apply (burst_of_clicks_calls_once save_args (returning (JsThenable 0)) 0
           7 [8; 9] init).
  - reflexivity.
  - reflexivity.
  - intros i. reflexivity.
  - reflexivity.
  - simpl. discriminate.
Defined.

Lemma every_click_calls_without_guard_witness :
  invoked (log (run concurrent_args (map Click [7; 8; 9]) init))
  = invoked (log init) ++ repeat (value concurrent_args) (length [7; 8; 9]).
Proof.
  apply (every_click_calls_without_guard concurrent_args
           (returning (JsThenable 0)) [7; 8; 9] init); reflexivity.
Defined.

Lemma disabled_while_pending_witness :
  (__disabled save_args (this (run save_args [Click 7] init)) = true
   /\ isPending (this (run save_args [Click 7] init)) = true
   /\ isSettled (this (run save_args [Click 7] init)) = false)
  /\ (__disabled save_args (this (run save_args [Click 7; Fulfil 0] init)) = false
      /\ isPending (this (run save_args [Click 7; Fulfil 0] init)) = false
      /\ isSettled (this (run save_args [Click 7; Fulfil 0] init)) = true
      /\ isFulfilled (this (run save_args [Click 7; Fulfil 0] init)) = true
      /\ isRejected (this (run save_args [Click 7; Fulfil 0] init)) = negb true).
Proof.
  apply (disabled_while_pending save_args (returning (JsThenable 0)) 0
           (this init) true 7 init).
  - reflexivity.
  - reflexivity.
  - reflexivity.
  - reflexivity.
  - reflexivity.
  - simpl. discriminate.
Defined.

Lemma toggle_twice_restores_witness :
  LegacyButton.active
    (LegacyButton.this
       (LegacyButton.run None [LegacyButton.Click 7; LegacyButton.Click 8]
          star_world))
  = LegacyButton.active (LegacyButton.this star_world)
  /\ LegacyButton.icon
       (LegacyButton.this
          (LegacyButton.run None [LegacyButton.Click 7; LegacyButton.Click 8]
             star_world))
     = LegacyButton.icon (LegacyButton.this star_world).
Proof.
  apply (proj2 (toggle_twice_restores None JsUndefined 7 8 star_world
                  (or_introl eq_refl))).
  reflexivity.
Defined.

Lemma legacy_non_thenable_sticks_pending_witness :
  completion (LegacyButton.click
                (Some (LegacyButton.hand_over (JsString "oops"))) 7)
    LegacyButton.init
  = Throw (JsString "TypeError")
  /\ LegacyButton.textState
       (LegacyButton.this
          (exec (LegacyButton.click
                   (Some (LegacyButton.hand_over (JsString "oops"))) 7)
             LegacyButton.init))
     = LegacyButton.Pending
  /\ (forall p,
        LegacyButton.registered p
          (exec (LegacyButton.click
                   (Some (LegacyButton.hand_over (JsString "oops"))) 7)
             LegacyButton.init)
        = LegacyButton.registered p LegacyButton.init).
Proof.
  apply (legacy_non_thenable_sticks_pending (JsString "oops") 7 LegacyButton.init);
    reflexivity.
Defined.

Lemma text_agrees_across_generations_witness :
  LegacyButton.text save_legacy = text save_args (this pending_world).
Proof.
  apply (text_agrees_across_generations save_args (this pending_world) save_legacy).
  - reflexivity.
  - reflexivity.
  - simpl. discriminate.
  - right. reflexivity.
Defined.
